(** * solana-pumpfun-trader: the PumpPortal buy and sell pipelines

    A shallow embedding of [src/pumpPortal.ts].  The two exported
    operations, [buyViaPumpPortal] and [sellViaPumpPortal], are sequences of
    calls into collaborators (the address parser, the HTTP client, the
    transaction codec, the RPC connection) wrapped in one [try]/[catch].

    - JavaScript numbers are IEEE-754 binary64 values.  They are modelled by
      the specification floats of the Standard Library ([spec_float], with
      [SFmul prec emax] at precision 53), the type that [Prim2SF] maps the
      hardware floats to.
    - Statements run in a small completion monad: every statement yields the
      events it produced (log calls and collaborator calls, in order) and
      completes normally, by [return], or by [throw].
    - The collaborators are records of functions that either answer or
      throw.  A thrown value ([Thrown]) is whatever [catch (error: any)]
      may receive: an Error-like value ([JsError]), [undefined] or [null],
      or a value whose message is not a string.
    - The logging sink is the receiver of the [Log] events: its four methods
      are taken to return normally, as those of the default sink do. *)

From Stdlib Require Import ZArith List String Ascii Bool Lia.
From Stdlib Require Import DecimalString.
From Stdlib Require DecimalPos DecimalZ.
From Stdlib Require Import PrimFloat SpecFloat FloatOps.
Import ListNotations.

Local Open Scope string_scope.
Local Open Scope Z_scope.

(* ------------------------------------------------------------------ *)
(** ** Strings *)

(** [s.includes(needle)]. *)
Fixpoint includes (s needle : string) : bool :=
  if String.prefix needle s then true
  else match s with
       | EmptyString => false
       | String _ s' => includes s' needle
       end.

(** [s.substring(0, 8)]: strings are sequences of 8-bit characters here, so
    the count is in bytes. *)
Definition substring_0_8 (s : string) : string := String.substring 0 8 s.

(** Decimal rendering of an integer, [-] in front of a negative one. *)
Definition string_of_Z (z : Z) : string := NilZero.string_of_int (Z.to_int z).

(* ------------------------------------------------------------------ *)
(** ** Numbers *)

Definition number : Type := spec_float.

Definition num_mul (x y : number) : number := SFmul prec emax x y.

(** The literals [1e9], [5] and [0.005] of the source; the last is the
    binary64 value nearest to 0.005, written in hexadecimal. *)
Definition num_1e9 : number := Eval vm_compute in Prim2SF 1e9%float.
Definition num_5 : number := Eval vm_compute in Prim2SF 5%float.
Definition num_0_005 : number := Eval vm_compute in Prim2SF 0x1.47ae147ae147bp-8%float.

(** The signed mantissa of a finite number [m * 2^e]. *)
Definition signed (s : bool) (m : positive) : Z :=
  if s then Z.neg m else Z.pos m.

(** The integer a finite number denotes when it is one, and its floor
    otherwise: [Z.shiftl] by a negative exponent is the flooring division by
    a power of two. *)
Definition floorZ (x : number) : option Z :=
  match x with
  | S754_zero _ => Some 0
  | S754_finite s m e => Some (Z.shiftl (signed s m) e)
  | S754_infinity _ | S754_nan => None
  end.

Definition is_integer (x : number) : bool :=
  match x with
  | S754_zero _ => true
  | S754_finite _ m e => (0 <=? e) || (Z.pos m mod 2 ^ (- e) =? 0)
  | S754_infinity _ | S754_nan => false
  end.

(** An integer as a number; the mantissa is kept unnormalised (exponent 0),
    which denotes the same value. *)
Definition num_of_Z (s : bool) (z : Z) : number :=
  match z with
  | Z0 => S754_zero s
  | Zpos p => S754_finite false p 0
  | Zneg p => S754_finite true p 0
  end.

(** [Math.floor]: NaN, the infinities, the zeros and the integers are left
    as they are. *)
Definition Math_floor (x : number) : number :=
  match x with
  | S754_finite s m e =>
      if 0 <=? e then x else num_of_Z s (Z.shiftl (signed s m) e)
  | _ => x
  end.

(** [Number.MAX_SAFE_INTEGER], 2^53 - 1. *)
Definition MAX_SAFE_INTEGER : Z := 9007199254740991.

(** [Number.prototype.toString].  An integer up to [MAX_SAFE_INTEGER] in
    magnitude prints as its decimal digits.  Any other finite number prints
    by the shortest-round-trip rule of the language, which is the runtime's
    and is taken as the parameter [shortest]. *)
Definition Number_toString (shortest : number -> string) (x : number) : string :=
  match x with
  | S754_nan => "NaN"
  | S754_infinity false => "Infinity"
  | S754_infinity true => "-Infinity"
  | S754_zero _ => "0"
  | S754_finite s m e =>
      let z := Z.shiftl (signed s m) e in
      if is_integer x && (Z.abs z <=? MAX_SAFE_INTEGER)
      then string_of_Z z
      else shortest x
  end.


(* ------------------------------------------------------------------ *)
(** ** [URLSearchParams]

    The [application/x-www-form-urlencoded] serialiser: letters, digits and
    [* - . _] stand for themselves, a space becomes [+], every other byte is
    percent-encoded in upper-case hexadecimal. *)

Definition form_safe (c : ascii) : bool :=
  let n := N.to_nat (N_of_ascii c) in
  ((48 <=? n) && (n <=? 57) || (65 <=? n) && (n <=? 90)
   || (97 <=? n) && (n <=? 122) || (n =? 42) || (n =? 45) || (n =? 46)
   || (n =? 95))%nat.

Definition hex_digit (n : nat) : ascii :=
  ascii_of_nat (if (n <? 10)%nat then 48 + n else 55 + n)%nat.

Definition form_encode_char (c : ascii) : string :=
  if form_safe c then String c ""
  else if Ascii.eqb c " " then "+"
  else let n := N.to_nat (N_of_ascii c) in
       String "%" (String (hex_digit (n / 16)%nat)
                     (String (hex_digit (n mod 16)%nat) "")).

Fixpoint form_encode (s : string) : string :=
  match s with
  | EmptyString => ""
  | String c s' => form_encode_char c ++ form_encode s'
  end.

Definition URLSearchParams : Type := list (string * string).

(** [params.append(name, value)] adds the pair at the end. *)
Definition params_append (ps : URLSearchParams) (name value : string)
  : URLSearchParams := (ps ++ [(name, value)])%list.

Fixpoint URLSearchParams_toString (ps : URLSearchParams) : string :=
  match ps with
  | [] => ""
  | [(k, v)] => form_encode k ++ "=" ++ form_encode v
  | (k, v) :: rest =>
      form_encode k ++ "=" ++ form_encode v ++ "&"
      ++ URLSearchParams_toString rest
  end.

(* ------------------------------------------------------------------ *)
(** ** Data of the collaborators *)

Definition bytes : Type := list Byte.byte.

(** [Buffer.prototype.toString('utf-8')]: text is represented by its UTF-8
    bytes.  The decoder leaves every ASCII byte in place, so a search for an
    ASCII needle gives the same answer on the bytes as on the decoded
    text. *)
Definition Buffer_toString_utf8 (b : bytes) : string := string_of_list_byte b.

Record PublicKey : Type := { toBase58 : string }.

Record Keypair : Type := { publicKey : PublicKey; secretKey : bytes }.

(** The object literal [requestData] of the buy operation. *)
Record RequestData : Type := {
  rd_publicKey : string;
  rd_action : string;
  rd_mint : string;
  rd_amount : string;
  rd_denominatedInSol : string;
  rd_slippage : number;
  rd_priorityFee : number;
  rd_pool : string
}.

(** The second argument of [axios.post]: the object (buy) or the serialised
    parameters (sell). *)
Inductive PostData : Type :=
| DataObject (r : RequestData)
| DataString (s : string).

Record AxiosConfig : Type := {
  headers : list (string * string);
  responseType : string;
  timeout : Z
}.

(** A response: [data] is [None] when it is missing (falsy). *)
Record AxiosResponse : Type := { data : option bytes }.

(** The [data] of an HTTP error response: bytes, or a value that
    [Buffer.from] rejects, with the text a template literal gives it. *)
Inductive JsData : Type :=
| Bytes (b : bytes)
| Opaque (shown : string).

Record ErrorResponse : Type := {
  status : Z;
  err_data : option JsData   (* [None]: a falsy [data] *)
}.

(** An Error-like value, as the [catch] clauses read it: [error.response],
    [error.message] (absent or a string), [error.logs] (an array of strings
    or not an array) and [error.toString()]. *)
Record JsError : Type := {
  response : option ErrorResponse;
  message : option string;
  logs : option (list string);
  shown : string
}.

(** What a [catch (error: any)] clause may receive: an Error-like value;
    [undefined] or [null], given by its text; or a value with the
    properties of [e] except that its [message] is a truthy value that is
    not a string and has no [includes] method (a number, say), given by the
    text a template literal gives that message. *)
Inductive Thrown : Type :=
| ErrorLike (e : JsError)
| Nullish (text : string)
| MessageNotText (e : JsError) (text : string).
Coercion ErrorLike : JsError >-> Thrown.

Record VersionedTransaction : Type := {
  tx_message : bytes;
  tx_signatures : list bytes
}.

Record SendOptions : Type := { skipPreflight : bool; maxRetries : Z }.

Inductive Commitment : Type := processed | confirmed | finalized.

Record BlockhashWithExpiryBlockHeight : Type := {
  blockhash : string;
  lastValidBlockHeight : Z
}.

Record ConfirmationStrategy : Type := {
  cs_signature : string;
  cs_blockhash : string;
  cs_lastValidBlockHeight : Z
}.

(** An on-chain error of a confirmation result: an RPC error object or the
    name of an error variant, a truthy value either way; [err_shown] is the
    text a template literal gives it. *)
Record TransactionError : Type := { err_shown : string }.

(** [confirmation.value.err], [None] for [null]. *)
Record Confirmation : Type := { value_err : option TransactionError }.

Inductive Result (A : Type) : Type :=
| Ok (a : A)
| Err (e : Thrown).
Arguments Ok {A} a.
Arguments Err {A} e.

(** What the module imports and the runtime provides. *)
Record Env : Type := {
  new_PublicKey : string -> Result PublicKey;
  axios_post : string -> PostData -> AxiosConfig -> Result AxiosResponse;
  VersionedTransaction_deserialize : bytes -> Result VersionedTransaction;
  transaction_sign :
    VersionedTransaction -> list Keypair -> Result VersionedTransaction;
  transaction_serialize : VersionedTransaction -> Result bytes;
  shortest_digits : number -> string
}.

(** The [connection] argument. *)
Record Connection : Type := {
  sendRawTransaction : bytes -> SendOptions -> Result string;
  getLatestBlockhash : Commitment -> Result BlockhashWithExpiryBlockHeight;
  confirmTransaction : ConfirmationStrategy -> Commitment -> Result Confirmation
}.

(** [Buffer.from(value)]: a copy of the bytes, or a [TypeError]. *)
Definition TypeError (msg : string) : JsError :=
  {| response := None; message := Some msg; logs := None;
     shown := "TypeError: " ++ msg |}.

Definition Buffer_from (d : JsData) : Result bytes :=
  match d with
  | Bytes b => Ok b
  | Opaque _ => Err (TypeError "The first argument must be of type string or an instance of Buffer, ArrayBuffer, or Array or an Array-like Object.")
  end.

(** The text a template literal gives a value that may be [undefined]. *)
Definition template_string (v : option string) : string :=
  match v with Some s => s | None => "undefined" end.

Definition template_data (d : JsData) : string :=
  match d with
  | Bytes b => Buffer_toString_utf8 b
  | Opaque s => s
  end.

(** Truthiness of [error.message]: a non-empty string. *)
Definition truthy_string (v : option string) : bool :=
  match v with
  | Some s => negb (String.eqb s "")
  | None => false
  end.

(* ------------------------------------------------------------------ *)
(** ** Events and completions *)

Inductive Level : Type := Debug | Info | Warn | Error.

Inductive Event : Type :=
| Log (lvl : Level) (msg : string) (args : list RequestData)
| Call_PublicKey (value : string)
| Call_post (url : string) (d : PostData) (config : AxiosConfig)
| Call_deserialize (b : bytes)
| Call_sign (tx : VersionedTransaction) (signers : list Keypair)
| Call_serialize (tx : VersionedTransaction)
| Call_sendRawTransaction (raw : bytes) (options : SendOptions)
| Call_getLatestBlockhash (c : Commitment)
| Call_confirmTransaction (s : ConfirmationStrategy) (c : Commitment)
| Call_Buffer_from (d : JsData)
| Raised (e : Thrown).

(** How a statement completes. *)
Inductive Completion (A : Type) : Type :=
| Normal (a : A)
| Return (v : option string)
| Throw (e : Thrown).
Arguments Normal {A} a.
Arguments Return {A} v.
Arguments Throw {A} e.

Definition M (A : Type) : Type := (list Event * Completion A)%type.

Definition ret {A} (a : A) : M A := ([], Normal a).

Definition bind {A B} (m : M A) (k : A -> M B) : M B :=
  match m with
  | (t, Normal a) => let (t', c) := k a in ((t ++ t')%list, c)
  | (t, Return v) => (t, Return v)
  | (t, Throw e) => (t, Throw e)
  end.

Declare Scope js_scope.
Delimit Scope js_scope with js.
Notation "x <- m ;; k" := (bind m (fun x => k))
  (at level 61, m at next level, right associativity) : js_scope.
Notation "m ;; k" := (bind m (fun _ => k))
  (at level 61, right associativity) : js_scope.
Local Open Scope js_scope.

(** [return v;] *)
Definition return_ {A} (v : option string) : M A := ([], Return v).

(** A call into a collaborator: the call is recorded, and so is the value it
    throws. *)
Definition call {A} (ev : Event) (r : Result A) : M A :=
  match r with
  | Ok a => ([ev], Normal a)
  | Err e => ([ev; Raised e], Throw e)
  end.

(** A throw of the language itself: the value is recorded as well. *)
Definition throw_ {A} (e : Thrown) : M A := ([Raised e], Throw e).

(** [try { body } catch (error) { handler }] *)
Definition try_catch {A} (body : M A) (handler : Thrown -> M A) : M A :=
  match body with
  | (t, Throw e) => let (t', c) := handler e in ((t ++ t')%list, c)
  | done => done
  end.

(** [if (c) { body }] *)
Definition when (c : bool) (body : M unit) : M unit :=
  if c then body else ret tt.

(** [array.forEach(callback)] *)
Fixpoint forEach {A} (l : list A) (callback : A -> M unit) : M unit :=
  match l with
  | [] => ret tt
  | x :: l' => callback x ;; forEach l' callback
  end.

(** The methods of the logging sink. *)
Definition logger_debug (msg : string) (args : list RequestData) : M unit :=
  ([Log Debug msg args], Normal tt).
Definition logger_info (msg : string) : M unit := ([Log Info msg []], Normal tt).
Definition logger_warn (msg : string) : M unit := ([Log Warn msg []], Normal tt).
Definition logger_error (msg : string) : M unit := ([Log Error msg []], Normal tt).

(** The promise an [async] function returns.  The body has no normal
    completion to offer ([Empty_set]): every path ends in [return] or in a
    throw. *)
Inductive Settled : Type :=
| Fulfilled (v : option string)
| Rejected (e : Thrown).

Definition async (body : M Empty_set) : list Event * Settled :=
  match body with
  | (t, Normal a) => match a with end
  | (t, Return v) => (t, Fulfilled v)
  | (t, Throw e) => (t, Rejected e)
  end.

(* ------------------------------------------------------------------ *)
(** ** The operations of [pumpPortal.ts] *)

Definition PUMP_PORTAL_API : string := "https://pumpportal.fun/api/trade-local".

(** The third argument of both [axios.post] calls. *)
Definition post_config : AxiosConfig :=
  {| headers := [("Content-Type", "application/x-www-form-urlencoded")];
     responseType := "arraybuffer";
     timeout := 10000 |}.

(** The options of both [sendRawTransaction] calls. *)
Definition send_options : SendOptions :=
  {| skipPreflight := false; maxRetries := 3 |}.

(** A parameter with a default value. *)
Definition or_default {A} (d : A) (v : option A) : A :=
  match v with Some a => a | None => d end.

Definition mentions_migration (errorText : string) : bool :=
  includes errorText "bonding curve" || includes errorText "migrated"
  || includes errorText "does not exist".

Definition mentions_exhaustion (s : string) : bool :=
  includes s "NotEnoughTokensToBuy" || includes s "Not enough tokens".

(** The [TypeError] of a property read on [undefined] or [null]. *)
Definition cannot_read (value property : string) : JsError :=
  TypeError ("Cannot read properties of " ++ value ++ " (reading '"
             ++ property ++ "')").

(** The [TypeError] of a call of [includes] on a message without it. *)
Definition includes_is_not_a_function : JsError :=
  TypeError "error.message.includes is not a function".

(** The properties of a thrown value.  A nullish value has none: reading
    one throws ([read_response], [read_message]), so that its case here is
    never looked at. *)
Definition properties (error : Thrown) : JsError :=
  match error with
  | ErrorLike e | MessageNotText e _ => e
  | Nullish text =>
      {| response := None; message := None; logs := None; shown := text |}
  end.

(** [error.response], a [TypeError] on a nullish value. *)
Definition read_response (error : Thrown) : M (option ErrorResponse) :=
  match error with
  | Nullish text => throw_ (cannot_read text "response")
  | _ => ret (response (properties error))
  end.

(** Truthiness of [error.message], and the text a template literal gives
    it. *)
Definition message_truthy (error : Thrown) : bool :=
  match error with
  | MessageNotText _ _ => true
  | _ => truthy_string (message (properties error))
  end.

Definition message_text (error : Thrown) : string :=
  match error with
  | MessageNotText _ text => text
  | _ => template_string (message (properties error))
  end.

(** [`${error.message}`], a [TypeError] on a nullish value. *)
Definition read_message (error : Thrown) : M string :=
  match error with
  | Nullish text => throw_ (cannot_read text "message")
  | _ => ret (message_text error)
  end.

(** Line 141: [error.message.includes('NotEnoughTokensToBuy') ||
    error.message.includes('Not enough tokens')], a [TypeError] when the
    message has no [includes]. *)
Definition message_mentions_exhaustion (error : Thrown) : M bool :=
  match error with
  | MessageNotText _ _ => throw_ includes_is_not_a_function
  | _ => ret (mentions_exhaustion (message_text error))
  end.

Section Operations.

Variable env : Env.
Variable connection : Connection.
Variable wallet : Keypair.
Variable tokenMint : string.

(** Lines 45-52 of buy and 183-190 of sell, which are the same text. *)
Definition validate_mint : M string :=
  try_catch
    (pubkey <- call (Call_PublicKey tokenMint) (new_PublicKey env tokenMint) ;;
     ret (toBase58 pubkey))
    (fun error =>
       text <- read_message error ;;
       logger_error ("Invalid token mint address: " ++ tokenMint ++ " - "
                     ++ text) ;;
       return_ None).

(** Lines 81-115 of buy and 216-250 of sell, which differ in the word
    [action] of the success message only. *)
Definition sign_send_confirm (action : string) (response : AxiosResponse)
  : M Empty_set :=
  match data response with
  | Some d =>
      if (List.length d =? 0)%nat then     (* [response.data.length === 0] *)
        logger_error "Empty response from PumpPortal API" ;;
        return_ None
      else
        logger_info ("Received transaction from PumpPortal API ("
                     ++ string_of_Z (Z.of_nat (List.length d)) ++ " bytes)") ;;
        transactionBuffer <- call (Call_Buffer_from (Bytes d)) (Buffer_from (Bytes d)) ;;
        transaction <- call (Call_deserialize transactionBuffer)
                         (VersionedTransaction_deserialize env transactionBuffer) ;;
        transaction <- call (Call_sign transaction [wallet])
                         (transaction_sign env transaction [wallet]) ;;
        logger_info "Sending PumpPortal transaction..." ;;
        raw <- call (Call_serialize transaction)
                 (transaction_serialize env transaction) ;;
        signature <- call (Call_sendRawTransaction raw send_options)
                       (sendRawTransaction connection raw send_options) ;;
        logger_info ("Transaction sent: " ++ signature) ;;
        latestBlockhash <- call (Call_getLatestBlockhash finalized)
                             (getLatestBlockhash connection finalized) ;;
        let strategy :=
          {| cs_signature := signature;
             cs_blockhash := blockhash latestBlockhash;
             cs_lastValidBlockHeight := lastValidBlockHeight latestBlockhash |} in
        confirmation <- call (Call_confirmTransaction strategy confirmed)
                          (confirmTransaction connection strategy confirmed) ;;
        match value_err confirmation with
        | Some err =>
            logger_error ("Transaction failed: " ++ err_shown err) ;;
            return_ None
        | None =>
            logger_info (action ++ " SUCCESSFUL via PumpPortal: " ++ signature) ;;
            logger_info ("Transaction: https://solscan.io/tx/" ++ signature) ;;
            return_ (Some signature)
        end
  | None =>                                (* [!response.data] *)
      logger_error "Empty response from PumpPortal API" ;;
      return_ None
  end.

(** Lines 118-137 of buy and 253-272 of sell, which are the same text: the
    branch of the handler for an error that carries a [response]. *)
Definition catch_response (resp : ErrorResponse) : M unit :=
  let status := status resp in
  logger_error ("PumpPortal API error: " ++ string_of_Z status) ;;
  match err_data resp with
  | Some d =>
      try_catch
        (buffer <- call (Call_Buffer_from d) (Buffer_from d) ;;
         let errorText := Buffer_toString_utf8 buffer in
         logger_error ("Error details: " ++ errorText) ;;
         when (mentions_migration errorText)
           (logger_warn ("Token " ++ substring_0_8 tokenMint
                         ++ "... has migrated or does not exist on pump.fun bonding curve") ;;
            return_ None))
        (fun _ => logger_error ("Error response: " ++ template_data d))
  | None => ret tt
  end ;;
  when (status =? 400)
    (logger_warn ("Invalid token or request parameters for "
                  ++ substring_0_8 tokenMint ++ "...")).

(** Lines 152-160: the callback of [error.logs.forEach]. *)
Definition log_line (log : string) : M unit :=
  if mentions_exhaustion log then logger_error ("  " ++ log)
  else if includes log "Left:" || includes log "Right:"
       then logger_error ("  " ++ log)
       else logger_debug ("  " ++ log) [].

(** Lines 116-166: the handler of buy.  It reads [error.response] first
    (line 117), and calls [error.message.includes] on a truthy message
    (line 141). *)
Definition buy_catch (error : Thrown) : M Empty_set :=
  response <- read_response error ;;
  match response with
  | Some resp => catch_response resp
  | None =>
      if message_truthy error then
        logger_error ("PumpPortal buy error: " ++ message_text error) ;;
        exhausted <- message_mentions_exhaustion error ;;
        when exhausted
          (logger_error "BONDING CURVE ERROR" ;;
           logger_error ("Token " ++ substring_0_8 tokenMint
                         ++ "... bonding curve has insufficient tokens") ;;
           logger_error "Possible reasons:" ;;
           logger_error "  1. Token bonding curve is almost empty (most tokens sold)" ;;
           logger_error "  2. Token has migrated/launched (bonding curve completed)" ;;
           logger_error "  3. Amount requested is too large for available tokens") ;;
        match logs (properties error) with
        | Some lines =>
            logger_error "Transaction Logs:" ;;
            forEach lines log_line
        | None => ret tt
        end
      else logger_error ("PumpPortal buy error: " ++ shown (properties error))
  end ;;
  return_ None.

(** Lines 251-279: the handler of sell.  It reads [error.response] first
    (line 252). *)
Definition sell_catch (error : Thrown) : M Empty_set :=
  response <- read_response error ;;
  match response with
  | Some resp => catch_response resp
  | None =>
      if message_truthy error
      then logger_error ("PumpPortal sell error: " ++ message_text error)
      else logger_error ("PumpPortal sell error: " ++ shown (properties error))
  end ;;
  return_ None.

(** Lines 54-65: the payload of buy. *)
Definition buy_requestData (validTokenMint : string)
    (solAmount slippagePercent priorityFee : number) : RequestData :=
  let amountInLamports := Math_floor (num_mul solAmount num_1e9) in
  {| rd_publicKey := toBase58 (publicKey wallet);
     rd_action := "buy";
     rd_mint := validTokenMint;
     rd_amount := Number_toString (shortest_digits env) amountInLamports;
     rd_denominatedInSol := "true";
     rd_slippage := slippagePercent;
     rd_priorityFee := priorityFee;
     rd_pool := "pump" |}.

(** Lines 192-200: the parameters of sell. *)
Definition sell_params (validTokenMint : string)
    (tokenAmount slippagePercent priorityFee : number) : URLSearchParams :=
  let toString := Number_toString (shortest_digits env) in
  let params := [] in
  let params := params_append params "publicKey" (toBase58 (publicKey wallet)) in
  let params := params_append params "action" "sell" in
  let params := params_append params "mint" validTokenMint in
  let params := params_append params "amount" (toString tokenAmount) in
  let params := params_append params "denominatedInSol" "false" in
  let params := params_append params "slippage" (toString slippagePercent) in
  let params := params_append params "priorityFee" (toString priorityFee) in
  params_append params "pool" "pump".

(** Lines 43-115: the [try] block of buy. *)
Definition buy_try (solAmount slippagePercent priorityFee : number)
  : M Empty_set :=
  logger_info ("Using PumpPortal API to buy "
               ++ Number_toString (shortest_digits env) solAmount
               ++ " SOL worth of " ++ substring_0_8 tokenMint ++ "...") ;;
  validTokenMint <- validate_mint ;;
  let requestData :=
    buy_requestData validTokenMint solAmount slippagePercent priorityFee in
  logger_debug "PumpPortal API request:" [requestData] ;;
  response <- call (Call_post PUMP_PORTAL_API (DataObject requestData) post_config)
                (axios_post env PUMP_PORTAL_API (DataObject requestData) post_config) ;;
  sign_send_confirm "BUY" response.

(** Lines 181-250: the [try] block of sell. *)
Definition sell_try (tokenAmount slippagePercent priorityFee : number)
  : M Empty_set :=
  logger_info ("Using PumpPortal API to sell "
               ++ Number_toString (shortest_digits env) tokenAmount
               ++ " tokens of " ++ substring_0_8 tokenMint ++ "...") ;;
  validTokenMint <- validate_mint ;;
  let params :=
    sell_params validTokenMint tokenAmount slippagePercent priorityFee in
  logger_debug ("PumpPortal API request: " ++ URLSearchParams_toString params) [] ;;
  response <- call (Call_post PUMP_PORTAL_API
                      (DataString (URLSearchParams_toString params)) post_config)
                (axios_post env PUMP_PORTAL_API
                   (DataString (URLSearchParams_toString params)) post_config) ;;
  sign_send_confirm "SELL" response.

(** Lines 34-167. *)
Definition buyViaPumpPortal (solAmount : number)
    (slippagePercent priorityFee : option number) : list Event * Settled :=
  let slippagePercent := or_default num_5 slippagePercent in
  let priorityFee := or_default num_0_005 priorityFee in
  async (try_catch (buy_try solAmount slippagePercent priorityFee) buy_catch).

(** Lines 172-280. *)
Definition sellViaPumpPortal (tokenAmount : number)
    (slippagePercent priorityFee : option number) : list Event * Settled :=
  let slippagePercent := or_default num_5 slippagePercent in
  let priorityFee := or_default num_0_005 priorityFee in
  async (try_catch (sell_try tokenAmount slippagePercent priorityFee) sell_catch).

End Operations.

(* ------------------------------------------------------------------ *)
(** ** Both operations at once *)

Inductive Action : Type := Buy | Sell.

(** The operation of an action. *)
Definition trade (a : Action) (env : Env) (connection : Connection)
    (wallet : Keypair) (tokenMint : string) (amount : number)
    (slippagePercent priorityFee : option number) : list Event * Settled :=
  match a with
  | Buy => buyViaPumpPortal env connection wallet tokenMint amount
             slippagePercent priorityFee
  | Sell => sellViaPumpPortal env connection wallet tokenMint amount
              slippagePercent priorityFee
  end.

(** Its [try] block and its handler. *)
Definition trade_try (a : Action) (env : Env) (connection : Connection)
    (wallet : Keypair) (tokenMint : string) (amount : number)
    (slippagePercent priorityFee : option number) : M Empty_set :=
  match a with
  | Buy => buy_try env connection wallet tokenMint amount
             (or_default num_5 slippagePercent) (or_default num_0_005 priorityFee)
  | Sell => sell_try env connection wallet tokenMint amount
              (or_default num_5 slippagePercent) (or_default num_0_005 priorityFee)
  end.

Definition trade_catch (a : Action) (tokenMint : string) (error : Thrown)
  : M Empty_set :=
  match a with
  | Buy => buy_catch tokenMint error
  | Sell => sell_catch tokenMint error
  end.

(** The body it posts to the remote builder for a validated mint. *)
Definition payload (a : Action) (env : Env) (wallet : Keypair)
    (validTokenMint : string) (amount : number)
    (slippagePercent priorityFee : option number) : PostData :=
  match a with
  | Buy => DataObject (buy_requestData env wallet validTokenMint amount
                         (or_default num_5 slippagePercent)
                         (or_default num_0_005 priorityFee))
  | Sell => DataString (URLSearchParams_toString
                          (sell_params env wallet validTokenMint amount
                             (or_default num_5 slippagePercent)
                             (or_default num_0_005 priorityFee)))
  end.

(** The first message of an invocation. *)
Definition opening (a : Action) (env : Env) (tokenMint : string)
    (amount : number) : string :=
  match a with
  | Buy => "Using PumpPortal API to buy "
           ++ Number_toString (shortest_digits env) amount
           ++ " SOL worth of " ++ substring_0_8 tokenMint ++ "..."
  | Sell => "Using PumpPortal API to sell "
            ++ Number_toString (shortest_digits env) amount
            ++ " tokens of " ++ substring_0_8 tokenMint ++ "..."
  end.

(** The message that goes with the payload. *)
Definition payload_log (d : PostData) : Event :=
  match d with
  | DataObject r => Log Debug "PumpPortal API request:" [r]
  | DataString s => Log Debug ("PumpPortal API request: " ++ s) []
  end.

(* ------------------------------------------------------------------ *)
(** ** Reading a trace *)

Definition is_post (ev : Event) : bool :=
  match ev with Call_post _ _ _ => true | _ => false end.
Definition is_deserialize (ev : Event) : bool :=
  match ev with Call_deserialize _ => true | _ => false end.
Definition is_sign (ev : Event) : bool :=
  match ev with Call_sign _ _ => true | _ => false end.
Definition is_send (ev : Event) : bool :=
  match ev with Call_sendRawTransaction _ _ => true | _ => false end.
Definition is_raised (ev : Event) : bool :=
  match ev with Raised _ => true | _ => false end.
Definition is_warning (ev : Event) : bool :=
  match ev with Log Warn _ _ => true | _ => false end.
Definition is_error_log (ev : Event) : bool :=
  match ev with Log Error _ _ => true | _ => false end.

(** Events of the handlers: messages, [Buffer.from] and what it throws. *)
Definition is_local (ev : Event) : bool :=
  match ev with
  | Log _ _ _ | Call_Buffer_from _ | Raised _ => true
  | _ => false
  end.

Definition count (p : Event -> bool) (t : list Event) : nat :=
  List.length (filter p t).

(** The bodies posted, in order. *)
Fixpoint posted (t : list Event) : list PostData :=
  match t with
  | [] => []
  | Call_post _ d _ :: t' => d :: posted t'
  | _ :: t' => posted t'
  end.

(** A submission carries the options of the source, and a signature is
    asked of one signer. *)
Definition well_submitted (ev : Event) : bool :=
  match ev with
  | Call_sendRawTransaction _ o => negb (skipPreflight o) && (maxRetries o =? 3)
  | Call_sign _ signers => (List.length signers =? 1)%nat
  | _ => true
  end.

(** The word of the success message. *)
Definition action_word (a : Action) : string :=
  match a with Buy => "BUY" | Sell => "SELL" end.

(** [t] in front of the events of [m]. *)
Definition after {A} (t : list Event) (m : M A) : M A :=
  let (t', c) := m in ((t ++ t')%list, c).

(* ------------------------------------------------------------------ *)
(** ** What an invocation returns, stage by stage

    The value the pipeline yields when no stage throws: [answer] forgets
    what a failed stage threw. *)

Definition answer {A} (r : Result A) : option A :=
  match r with Ok a => Some a | Err _ => None end.

Definition and_then {A B} (o : option A) (k : A -> option B) : option B :=
  match o with Some a => k a | None => None end.

Definition settle (env : Env) (connection : Connection) (wallet : Keypair)
    (response : AxiosResponse) : option string :=
  and_then (data response) (fun d =>
  if (List.length d =? 0)%nat then None else
  and_then (answer (VersionedTransaction_deserialize env d)) (fun tx =>
  and_then (answer (transaction_sign env tx [wallet])) (fun signed_tx =>
  and_then (answer (transaction_serialize env signed_tx)) (fun raw =>
  and_then (answer (sendRawTransaction connection raw send_options)) (fun signature =>
  and_then (answer (getLatestBlockhash connection finalized)) (fun latest =>
  and_then (answer (confirmTransaction connection
                      {| cs_signature := signature;
                         cs_blockhash := blockhash latest;
                         cs_lastValidBlockHeight := lastValidBlockHeight latest |}
                      confirmed)) (fun confirmation =>
  match value_err confirmation with
  | Some _ => None
  | None => Some signature
  end))))))).

Definition outcome (a : Action) (env : Env) (connection : Connection)
    (wallet : Keypair) (tokenMint : string) (amount : number)
    (slippagePercent priorityFee : option number) : option string :=
  and_then (answer (new_PublicKey env tokenMint)) (fun pubkey =>
  and_then (answer (axios_post env PUMP_PORTAL_API
                      (payload a env wallet (toBase58 pubkey) amount
                         slippagePercent priorityFee) post_config))
    (settle env connection wallet)).

(* ------------------------------------------------------------------ *)
(** ** The events of the runs *)

(** The message of a rejected mint. *)
Definition invalid_mint_log (tokenMint : string) (error : JsError) : Event :=
  Log Error ("Invalid token mint address: " ++ tokenMint ++ " - "
             ++ template_string (message error)) [].

(** What the handler of the validation does with the value the parser
    threw, lines 49-52. *)
Definition mint_rejected {A} (tokenMint : string) (error : Thrown) : M A :=
  text <- read_message error ;;
  logger_error ("Invalid token mint address: " ++ tokenMint ++ " - " ++ text) ;;
  return_ None.

(** The events up to and including the request to the remote builder. *)
Definition request_events (a : Action) (env : Env) (tokenMint : string)
    (amount : number) (d : PostData) : list Event :=
  [Log Info (opening a env tokenMint amount) [];
   Call_PublicKey tokenMint;
   payload_log d;
   Call_post PUMP_PORTAL_API d post_config].

(** The event of one execution log line. *)
Definition line_event (log : string) : Event :=
  if mentions_exhaustion log || includes log "Left:" || includes log "Right:"
  then Log Error ("  " ++ log) []
  else Log Debug ("  " ++ log) [].

(* ------------------------------------------------------------------ *)
(** ** The stages of a run that reaches confirmation *)

(** What the stages answered. *)
Record Stages : Type := {
  st_pubkey : PublicKey;
  st_response : AxiosResponse;
  st_data : bytes;
  st_transaction : VersionedTransaction;
  st_signed : VersionedTransaction;
  st_raw : bytes;
  st_signature : string;
  st_latest : BlockhashWithExpiryBlockHeight;
  st_confirmation : Confirmation
}.

Definition st_strategy (s : Stages) : ConfirmationStrategy :=
  {| cs_signature := st_signature s;
     cs_blockhash := blockhash (st_latest s);
     cs_lastValidBlockHeight := lastValidBlockHeight (st_latest s) |}.

(** Every collaborator answered, from the address parser to the
    confirmation, and the payload was not empty. *)
Definition reaches_confirmation (a : Action) (env : Env)
    (connection : Connection) (wallet : Keypair) (tokenMint : string)
    (amount : number) (slippagePercent priorityFee : option number)
    (s : Stages) : Prop :=
  new_PublicKey env tokenMint = Ok (st_pubkey s)
  /\ axios_post env PUMP_PORTAL_API
       (payload a env wallet (toBase58 (st_pubkey s)) amount
          slippagePercent priorityFee) post_config = Ok (st_response s)
  /\ data (st_response s) = Some (st_data s)
  /\ st_data s <> []
  /\ VersionedTransaction_deserialize env (st_data s) = Ok (st_transaction s)
  /\ transaction_sign env (st_transaction s) [wallet] = Ok (st_signed s)
  /\ transaction_serialize env (st_signed s) = Ok (st_raw s)
  /\ sendRawTransaction connection (st_raw s) send_options = Ok (st_signature s)
  /\ getLatestBlockhash connection finalized = Ok (st_latest s)
  /\ confirmTransaction connection (st_strategy s) confirmed
     = Ok (st_confirmation s).

(** The events of such a run, after the request and up to the
    confirmation. *)
Definition pipeline_events (wallet : Keypair) (s : Stages) : list Event :=
  [Log Info ("Received transaction from PumpPortal API ("
             ++ string_of_Z (Z.of_nat (List.length (st_data s))) ++ " bytes)") [];
   Call_Buffer_from (Bytes (st_data s));
   Call_deserialize (st_data s);
   Call_sign (st_transaction s) [wallet];
   Log Info "Sending PumpPortal transaction..." [];
   Call_serialize (st_signed s);
   Call_sendRawTransaction (st_raw s) send_options;
   Log Info ("Transaction sent: " ++ st_signature s) [];
   Call_getLatestBlockhash finalized;
   Call_confirmTransaction (st_strategy s) confirmed].

(** The two messages of a success. *)
Definition success_events (a : Action) (signature : string) : list Event :=
  [Log Info (action_word a ++ " SUCCESSFUL via PumpPortal: " ++ signature) [];
   Log Info ("Transaction: https://solscan.io/tx/" ++ signature) []].

(** The messages of the handlers. *)
Definition migration_warning (tokenMint : string) : Event :=
  Log Warn ("Token " ++ substring_0_8 tokenMint
            ++ "... has migrated or does not exist on pump.fun bonding curve") [].

Definition invalid_request_warning (tokenMint : string) : Event :=
  Log Warn ("Invalid token or request parameters for "
            ++ substring_0_8 tokenMint ++ "...") [].

(** The events of the handler for an HTTP error whose body names a
    migration. *)
Definition migration_events (tokenMint : string) (resp : ErrorResponse)
    (body : bytes) : list Event :=
  [Log Error ("PumpPortal API error: " ++ string_of_Z (status resp)) [];
   Call_Buffer_from (Bytes body);
   Log Error ("Error details: " ++ Buffer_toString_utf8 body) [];
   migration_warning tokenMint].

(** The expanded diagnostic of buy, lines 142-147. *)
Definition exhaustion_diagnostic (tokenMint : string) : list Event :=
  [Log Error "BONDING CURVE ERROR" [];
   Log Error ("Token " ++ substring_0_8 tokenMint
              ++ "... bonding curve has insufficient tokens") [];
   Log Error "Possible reasons:" [];
   Log Error "  1. Token bonding curve is almost empty (most tokens sold)" [];
   Log Error "  2. Token has migrated/launched (bonding curve completed)" [];
   Log Error "  3. Amount requested is too large for available tokens" []].

(** The events of the handler of buy for an error without a response and
    with a message. *)
Definition buy_error_events (tokenMint : string) (msg : string)
    (lines : option (list string)) : list Event :=
  (Log Error ("PumpPortal buy error: " ++ msg) []
   :: (if mentions_exhaustion msg then exhaustion_diagnostic tokenMint else [])
   ++ match lines with
      | Some ls => Log Error "Transaction Logs:" [] :: map line_event ls
      | None => []
      end)%list.

Definition Level_eqb (l1 l2 : Level) : bool :=
  match l1, l2 with
  | Debug, Debug | Info, Info | Warn, Warn | Error, Error => true
  | _, _ => false
  end.

(** A message was logged at a level. *)
Definition logged (lvl : Level) (msg : string) (t : list Event) : bool :=
  existsb (fun ev => match ev with
                     | Log l m _ => Level_eqb l lvl && String.eqb m msg
                     | _ => false
                     end) t.

(* ------------------------------------------------------------------ *)
(** ** Sample collaborators *)

Definition sample_mint : string := "So11111111111111111111111111111111111111112".

Definition sample_wallet : Keypair :=
  {| publicKey := {| toBase58 := "4Nd1mBQtrMJVYVfKf2PJy9NZUZdTAsp7D4xWLs4gDB4T" |};
     secretKey := [Byte.x07] |}.

Definition sample_transaction : bytes := [Byte.x80; Byte.x01; Byte.x00].

Definition sample_signature : string :=
  "5VERv8NMvzbJMEkV8xnrLkEaWRtSz9CosKDYjCJjBRnbJLgp8uirBgmQpjKhoR4tjF3ZpRzrFmBV6UjKdiSZkQUW".

(** Thrown by the address parser on a malformed address. *)
Definition invalid_public_key : JsError :=
  {| response := None; message := Some "Invalid public key input";
     logs := None; shown := "Error: Invalid public key input" |}.

(** An environment whose parser accepts [sample_mint] only, whose builder
    answers [post], and whose codec keeps the bytes. *)
Definition sample_env (post : Result AxiosResponse) : Env :=
  {| new_PublicKey := fun s =>
       if String.eqb s sample_mint then Ok {| toBase58 := s |}
       else Err invalid_public_key;
     axios_post := fun _ _ _ => post;
     VersionedTransaction_deserialize := fun b =>
       Ok {| tx_message := b; tx_signatures := [] |};
     transaction_sign := fun tx signers =>
       Ok {| tx_message := tx_message tx;
             tx_signatures := map secretKey signers |};
     transaction_serialize := fun tx => Ok (tx_message tx);
     shortest_digits := fun _ => "0.005" |}.

(** A connection whose submission answers [send] and whose confirmation
    carries [err]. *)
Definition sample_connection (send : Result string)
    (err : option TransactionError) : Connection :=
  {| sendRawTransaction := fun _ _ => send;
     getLatestBlockhash := fun _ =>
       Ok {| blockhash := "EkSnNWid2cvwEVnVx9aBqawnmiCNiDgp3gUdkDPTKN1N";
             lastValidBlockHeight := 3090 |};
     confirmTransaction := fun _ _ => Ok {| value_err := err |} |}.

Definition sample_response : AxiosResponse :=
  {| data := Some sample_transaction |}.

(** An HTTP 400 whose body says that the token has migrated. *)
Definition migrated_error : JsError :=
  {| response :=
       Some {| status := 400;
               err_data := Some (Bytes (list_byte_of_string
                                          "token has migrated to raydium")) |};
     message := Some "Request failed with status code 400";
     logs := None;
     shown := "AxiosError: Request failed with status code 400" |}.

(** A failed simulation: the message does not name the error of the
    program, the execution log lines do. *)
Definition simulation_error : JsError :=
  {| response := None;
     message := Some "failed to send transaction: Transaction simulation failed: Error processing Instruction 2: custom program error: 0x1772";
     logs := Some ["Program 6EF8rrecthR5Dkzon8Nwu78hRvfCKubJ14M5uBEwF6P invoke [1]";
                   "Program log: Error Code: NotEnoughTokensToBuy. Error Number: 6002.";
                   "Program log: Left: 1000";
                   "Program 6EF8rrecthR5Dkzon8Nwu78hRvfCKubJ14M5uBEwF6P failed: custom program error: 0x1772"];
     shown := "SendTransactionError" |}.

(** The binary64 number nearest to 0.0123, and one SOL. *)
Definition num_0_0123 : number := Eval vm_compute in Prim2SF 0x1.930be0ded288dp-7%float.
Definition num_1 : number := Eval vm_compute in Prim2SF 1%float.

(** The binary64 numbers nearest to 0.3 and to 1.001, both below them. *)
Definition num_0_3 : number := Eval vm_compute in Prim2SF 0x1.3333333333333p-2%float.
Definition num_1_001 : number := Eval vm_compute in Prim2SF 0x1.004189374bc6ap+0%float.

Definition sample_stages (err : option TransactionError) : Stages :=
  {| st_pubkey := {| toBase58 := sample_mint |};
     st_response := sample_response;
     st_data := sample_transaction;
     st_transaction := {| tx_message := sample_transaction; tx_signatures := [] |};
     st_signed := {| tx_message := sample_transaction;
                     tx_signatures := [[Byte.x07]] |};
     st_raw := sample_transaction;
     st_signature := sample_signature;
     st_latest := {| blockhash := "EkSnNWid2cvwEVnVx9aBqawnmiCNiDgp3gUdkDPTKN1N";
                     lastValidBlockHeight := 3090 |};
     st_confirmation := {| value_err := err |} |}.

(** The events of the sample buy up to the submission that throws. *)
Definition sample_thrown_prefix (e : JsError) : list Event :=
  fst (trade_try Buy (sample_env (Ok sample_response))
         (sample_connection (Err e) None) sample_wallet sample_mint num_1
         None None).

(** The events of the sample sell up to the request that throws. *)
Definition sample_rejected_prefix (e : JsError) : list Event :=
  fst (trade_try Sell (sample_env (Err e))
         (sample_connection (Ok sample_signature) None) sample_wallet
         sample_mint num_1 None None).

(* ------------------------------------------------------------------ *)
(** ** The logging sink, lines 11-29 *)

(** A line of the console: the message and the further arguments. *)
Definition ConsoleLine : Type := (string * list RequestData)%type.

(** The two streams of the process. *)
Record Console : Type := {
  stdout : list ConsoleLine;
  stderr : list ConsoleLine
}.

(** [console.log] writes to the standard output, [console.warn] and
    [console.error] to the standard error. *)
Definition console_log (message : string) (args : list RequestData)
    (c : Console) : Console :=
  {| stdout := (stdout c ++ [(message, args)])%list; stderr := stderr c |}.

Definition console_warn (message : string) (args : list RequestData)
    (c : Console) : Console :=
  {| stdout := stdout c; stderr := (stderr c ++ [(message, args)])%list |}.

Definition console_error (message : string) (args : list RequestData)
    (c : Console) : Console :=
  {| stdout := stdout c; stderr := (stderr c ++ [(message, args)])%list |}.

(** [interface Logger]: four methods, acting on a world [W] of the sink. *)
Record Logger (W : Type) : Type := {
  debug : string -> list RequestData -> W -> W;
  info : string -> list RequestData -> W -> W;
  warn : string -> list RequestData -> W -> W;
  error : string -> list RequestData -> W -> W
}.
Arguments debug {W} l message args w.
Arguments info {W} l message args w.
Arguments warn {W} l message args w.
Arguments error {W} l message args w.

(** Lines 18-23. *)
Definition defaultLogger : Logger Console :=
  {| debug := fun _ _ c => c;
     info := console_log;
     warn := console_warn;
     error := console_error |}.

(** The variable [logger] of the module, line 25. *)
Record ModuleState (W : Type) : Type := { logger : Logger W }.
Arguments logger {W} m.

Definition initial_state : ModuleState Console := {| logger := defaultLogger |}.

(** Lines 27-29. *)
Definition setLogger {W W'} (customLogger : Logger W') (st : ModuleState W)
  : ModuleState W' :=
  {| logger := customLogger |}.

(** The log calls of a trace, made on a sink in order. *)
Definition deliver_event {W} (l : Logger W) (ev : Event) (w : W) : W :=
  match ev with
  | Log Debug message args => debug l message args w
  | Log Info message args => info l message args w
  | Log Warn message args => warn l message args w
  | Log Error message args => error l message args w
  | _ => w
  end.

Fixpoint deliver {W} (l : Logger W) (t : list Event) (w : W) : W :=
  match t with
  | [] => w
  | ev :: t' => deliver l t' (deliver_event l ev w)
  end.

(** The lines of a trace at the levels [p] selects. *)
Fixpoint lines_at (p : Level -> bool) (t : list Event) : list ConsoleLine :=
  match t with
  | [] => []
  | Log lvl message args :: t' =>
      if p lvl then (message, args) :: lines_at p t' else lines_at p t'
  | _ :: t' => lines_at p t'
  end.

Definition is_Info (l : Level) : bool :=
  match l with Info => true | _ => false end.
Definition is_Warn_or_Error (l : Level) : bool :=
  match l with Warn | Error => true | _ => false end.

(* ------------------------------------------------------------------ *)
(** ** Reading a trace, continued *)

Definition is_confirm (ev : Event) : bool :=
  match ev with Call_confirmTransaction _ _ => true | _ => false end.

(** The body of an HTTP error names a migration: it is bytes, and their
    text contains one of the three phrases. *)
Definition names_migration (resp : ErrorResponse) : bool :=
  match err_data resp with
  | Some (Bytes b) => mentions_migration (Buffer_toString_utf8 b)
  | _ => false
  end.

(** The events of the handler after the status line, for each kind of
    [data]. *)
Definition body_events (tokenMint : string) (resp : ErrorResponse)
  : list Event :=
  match err_data resp with
  | None => []
  | Some (Bytes b) =>
      [Call_Buffer_from (Bytes b);
       Log Error ("Error details: " ++ Buffer_toString_utf8 b) []]
  | Some (Opaque s) =>
      [Call_Buffer_from (Opaque s);
       Raised (TypeError "The first argument must be of type string or an instance of Buffer, ArrayBuffer, or Array or an Array-like Object.");
       Log Error ("Error response: " ++ s) []]
  end.

(** A message of the exhaustion report of buy: one of the six lines of the
    diagnostic or the heading of the log listing, at error level, or, at any
    level, a listed line (they start with two spaces). *)
Definition is_exhaustion_report (tokenMint : string) (ev : Event) : bool :=
  match ev with
  | Log lvl m _ =>
      String.prefix "  " m
      || Level_eqb lvl Error
         && (String.eqb m "BONDING CURVE ERROR"
             || String.eqb m ("Token " ++ substring_0_8 tokenMint
                              ++ "... bonding curve has insufficient tokens")
             || String.eqb m "Possible reasons:"
             || String.eqb m "Transaction Logs:")
  | _ => false
  end.

Definition is_some {A} (o : option A) : bool :=
  match o with Some _ => true | None => false end.

(** The word of the handler's message. *)
Definition action_name (a : Action) : string :=
  match a with Buy => "buy" | Sell => "sell" end.

(** An HTTP 500 whose body is not bytes. *)
Definition opaque_error : JsError :=
  {| response := Some {| status := 500; err_data := Some (Opaque "[object Object]") |};
     message := Some "Request failed with status code 500";
     logs := None;
     shown := "AxiosError: Request failed with status code 500" |}.

(** An HTTP 400 without a body. *)
Definition bad_request_error : JsError :=
  {| response := Some {| status := 400; err_data := None |};
     message := Some "Request failed with status code 400";
     logs := None;
     shown := "AxiosError: Request failed with status code 400" |}.


(** A thrown object whose message is the number 42. *)
Definition number_message_error : Thrown :=
  MessageNotText
    {| response := None; message := None; logs := None;
       shown := "[object Object]" |} "42".

(** A thrown value without a message, with log lines. *)
Definition silent_error : JsError :=
  {| response := None; message := None;
     logs := Some ["Program log: Error Code: NotEnoughTokensToBuy."];
     shown := "[object Object]" |}.

Definition num_1000000 : number := Eval vm_compute in Prim2SF 1000000%float.

(** The events of the branch for an error with a response: the status
    line, the lines of the body, and one warning at most. *)
Definition response_events (tokenMint : string) (resp : ErrorResponse)
  : list Event :=
  (Log Error ("PumpPortal API error: " ++ string_of_Z (status resp)) []
   :: body_events tokenMint resp
   ++ (if names_migration resp then [migration_warning tokenMint]
       else if status resp =? 400 then [invalid_request_warning tokenMint]
       else []))%list.

(** Reading a decimal integer. *)
Definition read_Z (s : string) : option Z :=
  option_map Z.of_int (NilZero.int_of_string s).

(* ------------------------------------------------------------------ *)
(** ** Lemmas on traces *)

Lemma count_app p (t1 t2 : list Event) :
  count p (t1 ++ t2) = (count p t1 + count p t2)%nat.
Proof. unfold count. rewrite filter_app, length_app. reflexivity. Qed.

Lemma local_count_zero p (t : list Event) :
  (forall ev, is_local ev = true -> p ev = false) ->
  forallb is_local t = true -> count p t = 0%nat.
Proof.
  intros Hp. unfold count.
  induction t as [|ev t IH]; simpl; [reflexivity|].
  intros H. apply andb_prop in H. destruct H as [Hev Ht].
  rewrite (Hp ev Hev). auto.
Qed.

Lemma local_forallb p (t : list Event) :
  (forall ev, is_local ev = true -> p ev = true) ->
  forallb is_local t = true -> forallb p t = true.
Proof.
  intros Hp. induction t as [|ev t IH]; simpl; [reflexivity|].
  intros H. apply andb_prop in H. destruct H as [Hev Ht].
  rewrite (Hp ev Hev). auto.
Qed.

Lemma posted_app (t1 t2 : list Event) :
  posted (t1 ++ t2) = (posted t1 ++ posted t2)%list.
Proof.
  induction t1 as [|ev t1 IH]; simpl; [reflexivity|].
  destruct ev; simpl; rewrite ?IH; reflexivity.
Qed.

Lemma local_posted (t : list Event) :
  forallb is_local t = true -> posted t = [].
Proof.
  induction t as [|ev t IH]; simpl; [reflexivity|].
  intros H. apply andb_prop in H. destruct H as [Hev Ht].
  destruct ev; simpl in Hev; try discriminate; auto.
Qed.

(* ------------------------------------------------------------------ *)
(** ** The handlers *)

Lemma forEach_log_line (lines : list string) :
  forEach lines log_line = (map line_event lines, Normal tt).
Proof.
  induction lines as [|log lines IH]; [reflexivity|].
  cbn [forEach map]. rewrite IH.
  unfold log_line, line_event.
  destruct (mentions_exhaustion log); [reflexivity|].
  cbn [orb].
  destruct (includes log "Left:" || includes log "Right:"); reflexivity.
Qed.

Lemma line_events_local (lines : list string) :
  forallb is_local (map line_event lines) = true.
Proof.
  induction lines as [|log lines IH]; [reflexivity|].
  cbn [map forallb]. rewrite IH. unfold line_event.
  destruct (mentions_exhaustion log || includes log "Left:" || includes log "Right:");
    reflexivity.
Qed.

(** The handler's branch for an error with a response completes normally or
    by [return null], and never throws. *)
Lemma catch_response_completes (tokenMint : string) (resp : ErrorResponse) :
  exists t c, catch_response tokenMint resp = (t, c)
              /\ forallb is_local t = true
              /\ (c = Normal tt \/ c = Return None).
Proof.
  unfold catch_response.
  destruct (err_data resp) as [[b|s]|]; cbn.
  - destruct (mentions_migration (Buffer_toString_utf8 b));
      destruct (status resp =? 400); cbn; eauto 10.
  - destruct (status resp =? 400); cbn; eauto 10.
  - destruct (status resp =? 400); cbn; eauto 10.
Qed.

(** Opens a handler on a thrown value whose kind is known. *)
Ltac open_catch :=
  unfold trade_catch, buy_catch, sell_catch, read_response,
    message_mentions_exhaustion, message_truthy, message_text;
  cbn [properties bind ret app].

(** On an Error-like value both handlers end in [return null] and call no
    collaborator. *)
Lemma trade_catch_returns (a : Action) (tokenMint : string) (error : JsError) :
  exists t, trade_catch a tokenMint error = (t, Return None)
            /\ forallb is_local t = true.
Proof.
  destruct a; open_catch; destruct (response error) as [resp|].
  - destruct (catch_response_completes tokenMint resp) as (t & c & E & L & [C|C]);
      rewrite E, C; cbn; rewrite ?app_nil_r; eauto.
  - destruct (truthy_string (message error)); [|cbn; eauto].
    destruct (logs error) as [lines|];
      destruct (mentions_exhaustion (template_string (message error)));
      cbn; rewrite ?forEach_log_line; cbn; rewrite ?app_nil_r;
      eexists; (split; [reflexivity|]); cbn;
      rewrite ?forallb_app, ?line_events_local; reflexivity.
  - destruct (catch_response_completes tokenMint resp) as (t & c & E & L & [C|C]);
      rewrite E, C; cbn; rewrite ?app_nil_r; eauto.
  - destruct (truthy_string (message error)); cbn; eauto.
Qed.

(** On any thrown value both handlers call no collaborator, and end in
    [return null] or throw. *)
Lemma trade_catch_completes (a : Action) (tokenMint : string) (error : Thrown) :
  exists t c, trade_catch a tokenMint error = (t, c)
              /\ forallb is_local t = true
              /\ (c = Return None \/ exists e, c = Throw e).
Proof.
  destruct error as [e|text|e text].
  - destruct (trade_catch_returns a tokenMint e) as (t & E & L). eauto 10.
  - destruct a; cbn; eauto 10.
  - destruct a; open_catch; destruct (response e) as [resp|].
    + destruct (catch_response_completes tokenMint resp)
        as (t & c & E & L & [C|C]);
        rewrite E, C; cbn; rewrite ?app_nil_r; eauto 10.
    + cbn. eauto 10.
    + destruct (catch_response_completes tokenMint resp)
        as (t & c & E & L & [C|C]);
        rewrite E, C; cbn; rewrite ?app_nil_r; eauto 10.
    + cbn. eauto 10.
Qed.

(* ------------------------------------------------------------------ *)
(** ** The [try] blocks *)

Lemma trade_unfold a env connection wallet tokenMint amount sl pf :
  trade a env connection wallet tokenMint amount sl pf =
  async (try_catch (trade_try a env connection wallet tokenMint amount sl pf)
           (trade_catch a tokenMint)).
Proof. destruct a; reflexivity. Qed.

(** Both [try] blocks have one shape: validation, then the request, then
    the common tail. *)
Lemma trade_try_eq a env connection wallet tokenMint amount sl pf :
  trade_try a env connection wallet tokenMint amount sl pf =
  match new_PublicKey env tokenMint with
  | Err e =>
      after [Log Info (opening a env tokenMint amount) [];
             Call_PublicKey tokenMint; Raised e]
        (mint_rejected tokenMint e)
  | Ok pubkey =>
      let d := payload a env wallet (toBase58 pubkey) amount sl pf in
      match axios_post env PUMP_PORTAL_API d post_config with
      | Err e =>
          ((request_events a env tokenMint amount d ++ [Raised e])%list, Throw e)
      | Ok response =>
          after (request_events a env tokenMint amount d)
            (sign_send_confirm env connection wallet (action_word a) response)
      end
  end.
Proof.
  destruct a; unfold trade_try, buy_try, sell_try, validate_mint, payload;
    cbn [opening action_word];
    (destruct (new_PublicKey env tokenMint) as [pubkey|e];
     [|destruct e; reflexivity]);
    cbn [call try_catch bind ret app logger_info logger_debug toBase58];
    match goal with
    | |- context [axios_post ?e ?u ?d ?c] => destruct (axios_post e u d c)
    end; cbn [call bind app after request_events payload_log];
    try reflexivity;
    match goal with
    | |- context [sign_send_confirm ?e ?c ?w ?s ?r] =>
        destruct (sign_send_confirm e c w s r); reflexivity
    end.
Qed.

(** Destructs the next collaborator call of the goal. *)
Ltac next_call :=
  match goal with
  | |- context [call _ ?r] =>
      let E := fresh "E" in
      destruct r eqn:E; cbn [call bind app ret logger_info logger_error fst snd]
  end.

(** What holds of the common tail on every path. *)
Lemma sign_send_confirm_paths env connection wallet word response :
  let m := sign_send_confirm env connection wallet word response in
  posted (fst m) = []
  /\ count is_post (fst m) = 0%nat
  /\ (count is_sign (fst m) <= 1)%nat
  /\ (count is_send (fst m) <= 1)%nat
  /\ forallb well_submitted (fst m) = true
  /\ existsb is_warning (fst m) = false
  /\ match snd m with
     | Normal a => False
     | Return v =>
         v = settle env connection wallet response
         /\ existsb is_raised (fst m) = false
     | Throw e =>
         settle env connection wallet response = None
         /\ existsb is_raised (fst m) = true
         /\ existsb is_error_log (fst m) = false
     end.
Proof.
  unfold sign_send_confirm, settle.
  destruct (data response) as [d|]; cbn [and_then];
    [|cbn; repeat split; auto].
  destruct (List.length d =? 0)%nat; [cbn; repeat split; auto|].
  cbn [Buffer_from call bind app logger_info].
  repeat (next_call; cbn [answer and_then];
          [|cbn; repeat split; auto]).
  match goal with
  | |- context [value_err ?c] => destruct (value_err c)
  end; cbn; repeat split; auto.
Qed.

(** What holds of a [try] block on every path. *)
Lemma trade_try_paths a env connection wallet tokenMint amount sl pf :
  let m := trade_try a env connection wallet tokenMint amount sl pf in
  (count is_post (fst m) <= 1)%nat
  /\ (count is_sign (fst m) <= 1)%nat
  /\ (count is_send (fst m) <= 1)%nat
  /\ forallb well_submitted (fst m) = true
  /\ existsb is_warning (fst m) = false
  /\ match snd m with
     | Normal x => False
     | Return v =>
         v = outcome a env connection wallet tokenMint amount sl pf
         /\ (v <> None -> existsb is_raised (fst m) = false)
     | Throw e =>
         outcome a env connection wallet tokenMint amount sl pf = None
         /\ existsb is_error_log (fst m) = false
     end.
Proof.
  cbv zeta. rewrite trade_try_eq. unfold outcome.
  destruct (new_PublicKey env tokenMint) as [pubkey|e]; cbn [answer and_then].
  2: { destruct e; cbn; repeat split; auto; congruence. }
  cbv zeta.
  destruct (axios_post env PUMP_PORTAL_API
              (payload a env wallet (toBase58 pubkey) amount sl pf) post_config)
    as [response|e]; cbn [answer and_then].
  2: { destruct a; cbn; repeat split; auto. }
  pose proof (sign_send_confirm_paths env connection wallet (action_word a) response)
    as P.
  cbv zeta in P.
  destruct (sign_send_confirm env connection wallet (action_word a) response)
    as [t c].
  cbn [fst snd after] in *.
  destruct P as (_ & Hpost & Hsign & Hsend & Hsub & Hwarn & Hc).
  rewrite !count_app, forallb_app, !existsb_app, Hpost, Hsub, Hwarn.
  destruct a; cbn; (repeat split; auto; try lia);
    destruct c as [x|v|e]; try tauto;
    destruct Hc as [Hv Hr]; try split; auto; tauto.
Qed.

(** A [try] block under a handler that calls no collaborator and ends in
    [return null] or throws: the promise is fulfilled by the value the block
    returns, or by [null] when the handler returns, and it is rejected when
    the handler throws. *)
Lemma async_try_catch (body : M Empty_set) (handler : Thrown -> M Empty_set) :
  (forall e, exists t c, handler e = (t, c)
                         /\ forallb is_local t = true
                         /\ (c = Return None \/ exists e', c = Throw e')) ->
  exists t s,
    async (try_catch body handler) = ((fst body ++ t)%list, s)
    /\ forallb is_local t = true
    /\ match snd body with
       | Normal x => False
       | Return w => s = Fulfilled w /\ t = []
       | Throw e =>
           (handler e = (t, Return None) /\ s = Fulfilled None)
           \/ (exists e', handler e = (t, Throw e') /\ s = Rejected e')
       end.
Proof.
  intros H. destruct body as [t [x|w|e]]; [destruct x| |].
  - exists [], (Fulfilled w). cbn. rewrite app_nil_r. auto.
  - destruct (H e) as (th & c & E & L & [->|[e' ->]]).
    + exists th, (Fulfilled None). cbn. rewrite E. auto.
    + exists th, (Rejected e'). cbn. rewrite E. eauto 10.
Qed.

(* ------------------------------------------------------------------ *)
(** ** Runs that reach confirmation *)

Lemma nonempty_length (d : bytes) : d <> [] -> (List.length d =? 0)%nat = false.
Proof. destruct d; [congruence|reflexivity]. Qed.

(** The [try] block of a run whose stages all answer. *)
Lemma reaches_confirmation_try a env connection wallet tokenMint amount sl pf s :
  reaches_confirmation a env connection wallet tokenMint amount sl pf s ->
  trade_try a env connection wallet tokenMint amount sl pf =
  after (request_events a env tokenMint amount
           (payload a env wallet (toBase58 (st_pubkey s)) amount sl pf)
         ++ pipeline_events wallet s)%list
    match value_err (st_confirmation s) with
    | Some err =>
        ([Log Error ("Transaction failed: " ++ err_shown err) []], Return None)
    | None =>
        (success_events a (st_signature s), Return (Some (st_signature s)))
    end.
Proof.
  intros (Hkey & Hpost & Hdata & Hne & Hde & Hsign & Hser & Hsend & Hlatest & Hconf).
  rewrite trade_try_eq, Hkey. cbv zeta. rewrite Hpost.
  unfold sign_send_confirm. rewrite Hdata, (nonempty_length _ Hne).
  cbn [Buffer_from call bind app logger_info].
  rewrite Hde. cbn [call bind app logger_info].
  rewrite Hsign. cbn [call bind app logger_info].
  rewrite Hser. cbn [call bind app logger_info].
  rewrite Hsend. cbn [call bind app logger_info].
  rewrite Hlatest. cbn [call bind app logger_info].
  fold (st_strategy s). rewrite Hconf. cbn [call bind app logger_info].
  unfold after, pipeline_events, success_events.
  destruct (value_err (st_confirmation s)) as [err|];
    cbn [bind logger_info logger_error return_ app];
    rewrite <- ?app_assoc; reflexivity.
Qed.


(** An invocation, from its [try] block. *)
Lemma trade_from_try a env connection wallet tokenMint amount sl pf :
  let m := trade_try a env connection wallet tokenMint amount sl pf in
  exists t s,
    trade a env connection wallet tokenMint amount sl pf
    = ((fst m ++ t)%list, s)
    /\ forallb is_local t = true
    /\ match snd m with
       | Normal x => False
       | Return w => s = Fulfilled w /\ t = []
       | Throw e =>
           (trade_catch a tokenMint e = (t, Return None) /\ s = Fulfilled None)
           \/ (exists e', trade_catch a tokenMint e = (t, Throw e')
                          /\ s = Rejected e')
       end.
Proof.
  cbv zeta. rewrite trade_unfold.
  apply async_try_catch. apply trade_catch_completes.
Qed.


(* ------------------------------------------------------------------ *)
(** ** The properties of the operations *)



(** C1, on the code.  The handlers dereference whatever was thrown.  When
    the submission of the sample connection throws [undefined], the handler
    of buy and that of sell throw the [TypeError] of reading
    [error.response] (lines 117 and 252), and the promise is rejected
    instead of fulfilled by [null].  When it throws a value whose message is
    the number 42, buy logs the message and then throws the [TypeError] of
    [error.message.includes] (line 141), and its promise is rejected; sell
    returns [null]. *)
Theorem handler_throw_rejects :
  snd (buyViaPumpPortal (sample_env (Ok sample_response))
         (sample_connection (Err (Nullish "undefined")) None) sample_wallet
         sample_mint num_1 None None)
  = Rejected (cannot_read "undefined" "response")
  /\ snd (sellViaPumpPortal (sample_env (Ok sample_response))
            (sample_connection (Err (Nullish "undefined")) None) sample_wallet
            sample_mint num_1000000 None None)
     = Rejected (cannot_read "undefined" "response")
  /\ buyViaPumpPortal (sample_env (Ok sample_response))
       (sample_connection (Err number_message_error) None) sample_wallet
       sample_mint num_1 None None
     = ((fst (trade_try Buy (sample_env (Ok sample_response))
                (sample_connection (Err number_message_error) None)
                sample_wallet sample_mint num_1 None None)
         ++ [Log Error "PumpPortal buy error: 42" [];
             Raised includes_is_not_a_function])%list,
        Rejected includes_is_not_a_function)
  /\ snd (sellViaPumpPortal (sample_env (Ok sample_response))
            (sample_connection (Err number_message_error) None) sample_wallet
            sample_mint num_1000000 None None)
     = Fulfilled None.
Proof. repeat split; vm_compute; reflexivity. Qed.

(** C2.  When the address parser rejects the token identifier, buy and sell
    log the opening message, call the parser, log the rejected identifier
    with the parser's message, and return [null]: nothing is posted to the
    remote builder. *)
Theorem malformed_mint_short_circuits
    a env connection wallet tokenMint amount sl pf (e : JsError) :
  new_PublicKey env tokenMint = Err e ->
  trade a env connection wallet tokenMint amount sl pf
  = ([Log Info (opening a env tokenMint amount) [];
      Call_PublicKey tokenMint; Raised e; invalid_mint_log tokenMint e],
     Fulfilled None)
  /\ count is_post (fst (trade a env connection wallet tokenMint amount sl pf))
     = 0%nat.
Proof.
  intros H.
  assert (trade a env connection wallet tokenMint amount sl pf
          = ([Log Info (opening a env tokenMint amount) [];
              Call_PublicKey tokenMint; Raised e; invalid_mint_log tokenMint e],
             Fulfilled None)) as E.
  { rewrite trade_unfold, trade_try_eq, H. reflexivity. }
  split; [exact E|]. rewrite E. reflexivity.
Qed.

Lemma malformed_mint_short_circuits_witness :
  trade Buy (sample_env (Ok sample_response))
    (sample_connection (Ok sample_signature) None) sample_wallet
    "not-a-mint" num_1 None None
  = ([Log Info "Using PumpPortal API to buy 1 SOL worth of not-a-mi..." [];
      Call_PublicKey "not-a-mint"; Raised invalid_public_key;
      Log Error "Invalid token mint address: not-a-mint - Invalid public key input" []],
     Fulfilled None)
  /\ count is_post
       (fst (trade Buy (sample_env (Ok sample_response))
               (sample_connection (Ok sample_signature) None) sample_wallet
               "not-a-mint" num_1 None None)) = 0%nat.
Proof.
  apply (malformed_mint_short_circuits Buy (sample_env (Ok sample_response))
           (sample_connection (Ok sample_signature) None) sample_wallet
           "not-a-mint" num_1 None None invalid_public_key).
  reflexivity.
Defined.

(** Whatever the parser throws, also [undefined] or [null] (the handler of
    the validation then throws while it reads the message, and the outer
    handler logs that [TypeError]), the operation returns [null] and nothing
    is posted. *)
Lemma malformed_mint_any_throw
    a env connection wallet tokenMint amount sl pf (v : Thrown) :
  new_PublicKey env tokenMint = Err v ->
  snd (trade a env connection wallet tokenMint amount sl pf) = Fulfilled None
  /\ count is_post (fst (trade a env connection wallet tokenMint amount sl pf))
     = 0%nat.
Proof.
  intros H.
  destruct (trade_from_try a env connection wallet tokenMint amount sl pf)
    as (t & s & E & L & Hs).
  rewrite E, trade_try_eq, H in *. cbn [fst snd].
  rewrite count_app, (local_count_zero is_post t), Nat.add_0_r;
    [|intros []; cbn; congruence|exact L].
  destruct v as [e|text|e text]; cbn in Hs |- *.
  - destruct Hs as [-> _]. destruct a; split; reflexivity.
  - destruct (trade_catch_returns a tokenMint (cannot_read text "message"))
      as (t' & Ht' & _).
    destruct Hs as [[_ ->]|(e' & He' & _)]; [destruct a; split; reflexivity|].
    rewrite Ht' in He'. discriminate.
  - destruct Hs as [-> _]. destruct a; split; reflexivity.
Qed.

(** C7.  When the remote build, the signing, the submission and the
    confirmation all succeed and the confirmation carries no on-chain
    error, buy and sell return the very string the submission call
    produced; the run ends with the two success messages. *)
Theorem confirmed_run_returns_signature
    a env connection wallet tokenMint amount sl pf s :
  reaches_confirmation a env connection wallet tokenMint amount sl pf s ->
  value_err (st_confirmation s) = None ->
  trade a env connection wallet tokenMint amount sl pf
  = ((request_events a env tokenMint amount
        (payload a env wallet (toBase58 (st_pubkey s)) amount sl pf)
      ++ pipeline_events wallet s
      ++ success_events a (st_signature s))%list,
     Fulfilled (Some (st_signature s))).
Proof.
  intros Hs Herr.
  rewrite trade_unfold, (reaches_confirmation_try _ _ _ _ _ _ _ _ _ Hs), Herr.
  cbn [after try_catch async]. rewrite <- app_assoc. reflexivity.
Qed.

Lemma sample_reaches_confirmation a err :
  reaches_confirmation a (sample_env (Ok sample_response))
    (sample_connection (Ok sample_signature) err) sample_wallet
    sample_mint num_1 None None (sample_stages err).
Proof.
  unfold reaches_confirmation. cbn.
  repeat split; try reflexivity. discriminate.
Defined.

Lemma confirmed_run_returns_signature_witness :
  snd (trade Sell (sample_env (Ok sample_response))
         (sample_connection (Ok sample_signature) None) sample_wallet
         sample_mint num_1 None None)
  = Fulfilled (Some sample_signature).
Proof.
  rewrite (confirmed_run_returns_signature Sell
             (sample_env (Ok sample_response))
             (sample_connection (Ok sample_signature) None) sample_wallet
             sample_mint num_1 None None (sample_stages None)
             (sample_reaches_confirmation Sell None) eq_refl).
  reflexivity.
Defined.

(** C8.  When the submission succeeds and the confirmation carries an
    on-chain error, buy and sell log that error and return [null].  The run
    shows that the transaction was submitted (the submission call and the
    message with its signature are in it, and nothing was thrown), which
    tells it from a run that never submitted. *)
Theorem onchain_error_returns_null
    a env connection wallet tokenMint amount sl pf s err :
  reaches_confirmation a env connection wallet tokenMint amount sl pf s ->
  value_err (st_confirmation s) = Some err ->
  let r := trade a env connection wallet tokenMint amount sl pf in
  r = ((request_events a env tokenMint amount
          (payload a env wallet (toBase58 (st_pubkey s)) amount sl pf)
        ++ pipeline_events wallet s
        ++ [Log Error ("Transaction failed: " ++ err_shown err) []])%list,
       Fulfilled None)
  /\ count is_send (fst r) = 1%nat
  /\ logged Info ("Transaction sent: " ++ st_signature s) (fst r) = true
  /\ existsb is_raised (fst r) = false.
Proof.
  intros Hs Herr. cbv zeta.
  assert (trade a env connection wallet tokenMint amount sl pf
          = ((request_events a env tokenMint amount
                (payload a env wallet (toBase58 (st_pubkey s)) amount sl pf)
              ++ pipeline_events wallet s
              ++ [Log Error ("Transaction failed: " ++ err_shown err) []])%list,
             Fulfilled None)) as E.
  { rewrite trade_unfold, (reaches_confirmation_try _ _ _ _ _ _ _ _ _ Hs), Herr.
    cbn [after try_catch async]. rewrite <- app_assoc. reflexivity. }
  split; [exact E|]. rewrite E. cbn [fst].
  unfold logged. rewrite !count_app, !existsb_app.
  destruct a; cbn; rewrite String.eqb_refl; auto.
Qed.

Lemma onchain_error_returns_null_witness :
  snd (trade Buy (sample_env (Ok sample_response))
         (sample_connection (Ok sample_signature)
            (Some {| err_shown := "[object Object]" |})) sample_wallet
         sample_mint num_1 None None)
  = Fulfilled None.
Proof.
  rewrite (proj1 (onchain_error_returns_null Buy
             (sample_env (Ok sample_response))
             (sample_connection (Ok sample_signature)
                (Some {| err_shown := "[object Object]" |})) sample_wallet
             sample_mint num_1 None None
             (sample_stages (Some {| err_shown := "[object Object]" |}))
             {| err_shown := "[object Object]" |}
             (sample_reaches_confirmation Buy _) eq_refl)).
  reflexivity.
Defined.

(** C9.  In every invocation of buy or sell, at most one request is posted
    to the remote builder, at most one signature is requested (of one
    signer) and at most one submission is issued; a submission carries
    [skipPreflight: false] and [maxRetries: 3]. *)
Theorem at_most_one_build_sign_submit
    a env connection wallet tokenMint amount sl pf :
  let t := fst (trade a env connection wallet tokenMint amount sl pf) in
  (count is_post t <= 1)%nat
  /\ (count is_sign t <= 1)%nat
  /\ (count is_send t <= 1)%nat
  /\ forallb well_submitted t = true.
Proof.
  cbv zeta.
  destruct (trade_from_try a env connection wallet tokenMint amount sl pf)
    as (t & v & E & L & _).
  pose proof (trade_try_paths a env connection wallet tokenMint amount sl pf) as P.
  cbv zeta in P. destruct P as (Hpost & Hsign & Hsend & Hsub & _).
  rewrite E. cbn [fst].
  rewrite !count_app, forallb_app, Hsub.
  rewrite (local_count_zero is_post t), (local_count_zero is_sign t),
    (local_count_zero is_send t), (local_forallb well_submitted t); auto;
    try (intros [] ; cbn; congruence).
  repeat split; auto; lia.
Qed.

(* ------------------------------------------------------------------ *)
(** ** The lamport amount of buy *)

(** [floorZ] is the floor: below exponent 0 the value is
    [signed s m / 2^(-e)], and [z] is the integer with
    [z <= signed s m / 2^(-e) < z + 1]. *)
Lemma floorZ_is_floor s m e z :
  e < 0 ->
  floorZ (S754_finite s m e) = Some z ->
  z * 2 ^ (- e) <= signed s m < (z + 1) * 2 ^ (- e).
Proof.
  intros He [= <-].
  rewrite Z.shiftl_div_pow2 by lia.
  assert (0 < 2 ^ (- e)) as Hp by (apply Z.pow_pos_nonneg; lia).
  pose proof (Z.div_mod (signed s m) (2 ^ (- e))) as Hdm.
  pose proof (Z.mod_pos_bound (signed s m) (2 ^ (- e)) Hp) as Hb.
  nia.
Qed.

(** At or above exponent 0 the number is the integer [signed s m * 2^e]. *)
Lemma floorZ_of_integer s m e z :
  0 <= e ->
  floorZ (S754_finite s m e) = Some z ->
  z = signed s m * 2 ^ e.
Proof. intros He [= <-]. apply Z.shiftl_mul_pow2. exact He. Qed.

(** The product is the binary64 one, rounded to nearest.  For the number
    nearest to 0.3 it is 300000000 exactly, although the number times 10^9
    lies below it; for the number nearest to 1.001 it stays below
    1001000000, and the floor is 1000999999. *)
Remark product_is_rounded :
  num_0_3 = S754_finite false 5404319552844595 (-54)
  /\ Z.shiftl (5404319552844595 * 10 ^ 9) (-54) = 299999999
  /\ floorZ (num_mul num_0_3 num_1e9) = Some 300000000
  /\ floorZ (num_mul num_1_001 num_1e9) = Some 1000999999.
Proof. repeat split; vm_compute; reflexivity. Qed.

(** The floor of a number prints as the digits of its [floorZ], within the
    safe integers. *)
Lemma toString_floor shortest x z :
  floorZ x = Some z ->
  Z.abs z <= MAX_SAFE_INTEGER ->
  Number_toString shortest (Math_floor x) = string_of_Z z.
Proof.
  destruct x as [s|s| |s m e]; cbn [floorZ]; try discriminate.
  - intros [= <-] _. reflexivity.
  - intros [= Hz] Hsafe. cbn [Math_floor].
    destruct (0 <=? e) eqn:He.
    + cbn [Number_toString is_integer]. rewrite He, Hz. cbn [orb andb].
      apply Z.leb_le in Hsafe. rewrite Hsafe. reflexivity.
    + rewrite Hz. destruct z as [|p|p]; cbn [num_of_Z Number_toString].
      * reflexivity.
      * cbn [is_integer Z.leb Z.compare orb andb signed].
        rewrite Z.shiftl_0_r. apply Z.leb_le in Hsafe. rewrite Hsafe.
        reflexivity.
      * cbn [is_integer Z.leb Z.compare orb andb signed].
        rewrite Z.shiftl_0_r. apply Z.leb_le in Hsafe. rewrite Hsafe.
        reflexivity.
Qed.

(** The bodies posted by an invocation whose mint is valid: the payload,
    once. *)
Lemma posted_payload a env connection wallet tokenMint amount sl pf pubkey :
  new_PublicKey env tokenMint = Ok pubkey ->
  posted (fst (trade a env connection wallet tokenMint amount sl pf))
  = [payload a env wallet (toBase58 pubkey) amount sl pf].
Proof.
  intros Hkey.
  destruct (trade_from_try a env connection wallet tokenMint amount sl pf)
    as (t & v & E & L & _).
  rewrite E. cbn [fst]. rewrite posted_app, (local_posted t L), app_nil_r.
  rewrite trade_try_eq, Hkey. cbv zeta.
  destruct (axios_post env PUMP_PORTAL_API _ post_config) as [response|e].
  - pose proof (sign_send_confirm_paths env connection wallet (action_word a)
                  response) as P.
    cbv zeta in P. destruct P as (P & _).
    destruct (sign_send_confirm env connection wallet (action_word a) response)
      as [t' c].
    cbn [after fst] in *. rewrite posted_app, P.
    destruct a; reflexivity.
  - cbn [fst]. rewrite posted_app. destruct a; reflexivity.
Qed.

(** C3.  For a buy whose mint is valid, the amount of the one payload posted
    is the decimal rendering of the integer floor(solAmount * 1e9), the
    product being that of binary64 numbers; this for every amount whose
    product is finite and whose floor is a safe integer.  The amount 0.0123
    gives 12300000. *)
Theorem buy_amount_is_floor_lamports :
  (forall env connection wallet tokenMint solAmount sl pf pubkey z,
      new_PublicKey env tokenMint = Ok pubkey ->
      floorZ (num_mul solAmount num_1e9) = Some z ->
      Z.abs z <= MAX_SAFE_INTEGER ->
      exists r,
        posted (fst (buyViaPumpPortal env connection wallet tokenMint
                       solAmount sl pf)) = [DataObject r]
        /\ rd_amount r = string_of_Z z)
  /\ (forall env connection wallet tokenMint sl pf pubkey,
         new_PublicKey env tokenMint = Ok pubkey ->
         exists r,
           posted (fst (buyViaPumpPortal env connection wallet tokenMint
                          num_0_0123 sl pf)) = [DataObject r]
           /\ rd_amount r = "12300000").
Proof.
  assert (forall env connection wallet tokenMint solAmount sl pf pubkey z,
      new_PublicKey env tokenMint = Ok pubkey ->
      floorZ (num_mul solAmount num_1e9) = Some z ->
      Z.abs z <= MAX_SAFE_INTEGER ->
      exists r,
        posted (fst (buyViaPumpPortal env connection wallet tokenMint
                       solAmount sl pf)) = [DataObject r]
        /\ rd_amount r = string_of_Z z) as General.
  { intros env connection wallet tokenMint solAmount sl pf pubkey z Hkey Hz Hsafe.
    eexists. split.
    - exact (posted_payload Buy env connection wallet tokenMint solAmount sl pf
               pubkey Hkey).
    - cbn [rd_amount buy_requestData]. apply toString_floor; assumption. }
  split; [exact General|].
  intros env connection wallet tokenMint sl pf pubkey Hkey.
  apply (General env connection wallet tokenMint num_0_0123 sl pf pubkey 12300000
           Hkey).
  - vm_compute. reflexivity.
  - vm_compute. discriminate.
Qed.

Lemma buy_amount_is_floor_lamports_witness :
  exists r,
    posted (fst (buyViaPumpPortal (sample_env (Ok sample_response))
                   (sample_connection (Ok sample_signature) None)
                   sample_wallet sample_mint num_1 None None))
    = [DataObject r]
    /\ rd_amount r = "1000000000".
Proof.
  apply (proj1 buy_amount_is_floor_lamports (sample_env (Ok sample_response))
           (sample_connection (Ok sample_signature) None)
           sample_wallet sample_mint num_1 None None
           {| toBase58 := sample_mint |} 1000000000).
  - reflexivity.
  - vm_compute. reflexivity.
  - vm_compute. discriminate.
Defined.

(* ------------------------------------------------------------------ *)
(** ** The handlers, case by case *)

Lemma no_warning_filter (t : list Event) :
  existsb is_warning t = false -> filter is_warning t = [].
Proof.
  induction t as [|ev t IH]; cbn; [reflexivity|].
  destruct (is_warning ev); cbn; [discriminate|auto].
Qed.

Lemma no_error_log_logged (msg : string) (t : list Event) :
  existsb is_error_log t = false -> logged Error msg t = false.
Proof.
  unfold logged. induction t as [|ev t IH]; cbn; [reflexivity|].
  destruct ev as [[] m args| | | | | | | | | |]; cbn; auto; discriminate.
Qed.

Lemma no_warning_logged (msg : string) (t : list Event) :
  existsb is_warning t = false -> logged Warn msg t = false.
Proof.
  unfold logged. induction t as [|ev t IH]; cbn; [reflexivity|].
  destruct ev as [[] m args| | | | | | | | | |]; cbn; auto; discriminate.
Qed.

(** An invocation whose [try] block throws: the events of the block, then
    those of the handler, and [null]. *)
Lemma trade_thrown a env connection wallet tokenMint amount sl pf t e th :
  trade_try a env connection wallet tokenMint amount sl pf = (t, Throw e) ->
  trade_catch a tokenMint e = (th, Return None) ->
  trade a env connection wallet tokenMint amount sl pf
  = ((t ++ th)%list, Fulfilled None).
Proof.
  intros Htry Hcatch. rewrite trade_unfold, Htry. cbn [try_catch].
  rewrite Hcatch. reflexivity.
Qed.

(** The [try] block that throws has logged neither a warning nor an
    error. *)
Lemma thrown_try_is_quiet a env connection wallet tokenMint amount sl pf t e :
  trade_try a env connection wallet tokenMint amount sl pf = (t, Throw e) ->
  existsb is_warning t = false /\ existsb is_error_log t = false.
Proof.
  intros Htry.
  pose proof (trade_try_paths a env connection wallet tokenMint amount sl pf) as P.
  cbv zeta in P. rewrite Htry in P. cbn [fst snd] in P. tauto.
Qed.

(** The handler on an HTTP error whose body names a migration. *)
Lemma trade_catch_migration a tokenMint e resp body :
  response e = Some resp ->
  err_data resp = Some (Bytes body) ->
  mentions_migration (Buffer_toString_utf8 body) = true ->
  trade_catch a tokenMint e = (migration_events tokenMint resp body, Return None).
Proof.
  intros Hresp Hdata Hm.
  destruct a; open_catch; unfold catch_response;
    rewrite Hresp, Hdata; cbn [Buffer_from call bind try_catch app logger_error];
    rewrite Hm; reflexivity.
Qed.

(** The handler on an HTTP 400 whose body names no migration: the warning
    of the status is its last event. *)
Lemma trade_catch_status_400 a tokenMint e resp body :
  response e = Some resp ->
  err_data resp = Some (Bytes body) ->
  mentions_migration (Buffer_toString_utf8 body) = false ->
  status resp = 400 ->
  trade_catch a tokenMint e
  = ([Log Error "PumpPortal API error: 400" [];
      Call_Buffer_from (Bytes body);
      Log Error ("Error details: " ++ Buffer_toString_utf8 body) [];
      invalid_request_warning tokenMint],
     Return None).
Proof.
  intros Hresp Hdata Hm Hstatus.
  destruct a; open_catch; unfold catch_response;
    rewrite Hresp, Hdata, Hstatus;
    cbn [Buffer_from call bind try_catch app logger_error];
    rewrite Hm; reflexivity.
Qed.

(** The handler of buy on an error without a response and with a
    message. *)
Lemma buy_catch_message tokenMint e msg :
  response e = None ->
  message e = Some msg ->
  msg <> "" ->
  buy_catch tokenMint e = (buy_error_events tokenMint msg (logs e), Return None).
Proof.
  intros Hresp Hmsg Hne. open_catch. unfold buy_error_events.
  rewrite Hresp, Hmsg. cbn [truthy_string template_string].
  destruct (String.eqb_spec msg "") as [|_]; [contradiction|]. cbn [negb].
  destruct (mentions_exhaustion msg); destruct (logs e) as [lines|];
    cbn; rewrite ?forEach_log_line; cbn; rewrite ?app_nil_r; reflexivity.
Qed.

(** C4, as the code has it.  For a buy whose [try] block throws an error
    without an HTTP response and with a non-empty message, the operation
    logs the message, then the expanded diagnostic with its three possible
    causes exactly when the message contains "NotEnoughTokensToBuy" or
    "Not enough tokens", then, when the error carries an array of execution
    log lines, the heading and every line: at error level a line that
    contains "NotEnoughTokensToBuy", "Not enough tokens", "Left:" or
    "Right:", at debug level any other line.  It returns [null]. *)
Theorem buy_failure_diagnostics
    env connection wallet tokenMint solAmount sl pf t (e : JsError) msg :
  trade_try Buy env connection wallet tokenMint solAmount sl pf = (t, Throw e) ->
  response e = None ->
  message e = Some msg ->
  msg <> "" ->
  buyViaPumpPortal env connection wallet tokenMint solAmount sl pf
  = ((t ++ buy_error_events tokenMint msg (logs e))%list, Fulfilled None).
Proof.
  intros Htry Hresp Hmsg Hne.
  apply (trade_thrown Buy _ _ _ _ _ _ _ _ _ _ Htry).
  apply buy_catch_message; assumption.
Qed.

Lemma buy_failure_diagnostics_witness :
  buyViaPumpPortal (sample_env (Ok sample_response))
    (sample_connection (Err simulation_error) None) sample_wallet sample_mint
    num_1 None None
  = ((sample_thrown_prefix simulation_error
      ++ [Log Error "PumpPortal buy error: failed to send transaction: Transaction simulation failed: Error processing Instruction 2: custom program error: 0x1772" [];
          Log Error "Transaction Logs:" [];
          Log Debug "  Program 6EF8rrecthR5Dkzon8Nwu78hRvfCKubJ14M5uBEwF6P invoke [1]" [];
          Log Error "  Program log: Error Code: NotEnoughTokensToBuy. Error Number: 6002." [];
          Log Error "  Program log: Left: 1000" [];
          Log Debug "  Program 6EF8rrecthR5Dkzon8Nwu78hRvfCKubJ14M5uBEwF6P failed: custom program error: 0x1772" []])%list,
     Fulfilled None).
Proof.
  apply (buy_failure_diagnostics (sample_env (Ok sample_response))
           (sample_connection (Err simulation_error) None) sample_wallet
           sample_mint num_1 None None
           (sample_thrown_prefix simulation_error) simulation_error
           "failed to send transaction: Transaction simulation failed: Error processing Instruction 2: custom program error: 0x1772").
  - reflexivity.
  - reflexivity.
  - reflexivity.
  - discriminate.
Defined.

(** C4, as stated, fails.  The sample submission throws an error whose
    execution log lines contain "NotEnoughTokensToBuy" while its message
    does not: buy returns [null] without any line of the expanded
    diagnostic, and the line with "Left:", which does not contain the
    words, is logged at error level and not at debug level. *)
Lemma exhaustion_in_logs_only_no_diagnostic :
  let r := buyViaPumpPortal (sample_env (Ok sample_response))
             (sample_connection (Err simulation_error) None) sample_wallet
             sample_mint num_1 None None in
  sendRawTransaction (sample_connection (Err simulation_error) None)
    sample_transaction send_options = Err simulation_error
  /\ In (Raised simulation_error) (fst r)
  /\ logs simulation_error
     = Some ["Program 6EF8rrecthR5Dkzon8Nwu78hRvfCKubJ14M5uBEwF6P invoke [1]";
             "Program log: Error Code: NotEnoughTokensToBuy. Error Number: 6002.";
             "Program log: Left: 1000";
             "Program 6EF8rrecthR5Dkzon8Nwu78hRvfCKubJ14M5uBEwF6P failed: custom program error: 0x1772"]
  /\ includes "Program log: Error Code: NotEnoughTokensToBuy. Error Number: 6002."
       "NotEnoughTokensToBuy" = true
  /\ snd r = Fulfilled None
  /\ logged Error "BONDING CURVE ERROR" (fst r) = false
  /\ logged Error "Possible reasons:" (fst r) = false
  /\ logged Error "  1. Token bonding curve is almost empty (most tokens sold)" (fst r) = false
  /\ logged Error "  2. Token has migrated/launched (bonding curve completed)" (fst r) = false
  /\ logged Error "  3. Amount requested is too large for available tokens" (fst r) = false
  /\ mentions_exhaustion "Program log: Left: 1000" = false
  /\ logged Error "  Program log: Left: 1000" (fst r) = true
  /\ logged Debug "  Program log: Left: 1000" (fst r) = false.
Proof.
  cbv zeta. repeat split; try (vm_compute; reflexivity).
  vm_compute. do 11 right. left. reflexivity.
Qed.

(** C5.  When the [try] block of buy or sell throws an HTTP error whose
    response body, read as text, contains "bonding curve", "migrated" or
    "does not exist", the handler logs the status and the body, then the
    migration message at warning level, and the operation returns [null];
    the migration message is nowhere logged at error level. *)
Theorem migration_is_warned
    a env connection wallet tokenMint amount sl pf t (e : JsError) resp body :
  trade_try a env connection wallet tokenMint amount sl pf = (t, Throw e) ->
  response e = Some resp ->
  err_data resp = Some (Bytes body) ->
  mentions_migration (Buffer_toString_utf8 body) = true ->
  let r := trade a env connection wallet tokenMint amount sl pf in
  r = ((t ++ [Log Error ("PumpPortal API error: " ++ string_of_Z (status resp)) [];
              Call_Buffer_from (Bytes body);
              Log Error ("Error details: " ++ Buffer_toString_utf8 body) [];
              Log Warn ("Token " ++ substring_0_8 tokenMint
                        ++ "... has migrated or does not exist on pump.fun bonding curve") []])%list,
       Fulfilled None)
  /\ logged Error ("Token " ++ substring_0_8 tokenMint
                   ++ "... has migrated or does not exist on pump.fun bonding curve")
       (fst r) = false.
Proof.
  intros Htry Hresp Hdata Hm. cbv zeta.
  pose proof (trade_thrown a _ _ _ _ _ _ _ _ _ _ Htry
                (trade_catch_migration a tokenMint e resp body Hresp Hdata Hm)) as E.
  split; [exact E|]. rewrite E. cbn [fst].
  destruct (thrown_try_is_quiet _ _ _ _ _ _ _ _ _ _ Htry) as [_ Hq].
  unfold logged. rewrite existsb_app.
  fold (logged Error ("Token " ++ substring_0_8 tokenMint
                      ++ "... has migrated or does not exist on pump.fun bonding curve") t).
  rewrite (no_error_log_logged _ t Hq). reflexivity.
Qed.

Lemma migration_is_warned_witness :
  trade Sell (sample_env (Err migrated_error))
    (sample_connection (Ok sample_signature) None) sample_wallet sample_mint
    num_1 None None
  = ((sample_rejected_prefix migrated_error
      ++ [Log Error "PumpPortal API error: 400" [];
          Call_Buffer_from (Bytes (list_byte_of_string "token has migrated to raydium"));
          Log Error "Error details: token has migrated to raydium" [];
          Log Warn "Token So111111... has migrated or does not exist on pump.fun bonding curve" []])%list,
     Fulfilled None).
Proof.
  apply (proj1 (migration_is_warned Sell (sample_env (Err migrated_error))
                  (sample_connection (Ok sample_signature) None) sample_wallet
                  sample_mint num_1 None None
                  (sample_rejected_prefix migrated_error) migrated_error
                  {| status := 400;
                     err_data := Some (Bytes (list_byte_of_string
                                                "token has migrated to raydium")) |}
                  (list_byte_of_string "token has migrated to raydium")
                  eq_refl eq_refl eq_refl eq_refl)).
Defined.

(** C6.  When the remote builder answers with a missing or zero-length
    body, buy and sell log the empty-response message at error level and
    return [null]; the run stops there, without a call to the
    deserialiser. *)
Theorem empty_payload_returns_null
    a env connection wallet tokenMint amount sl pf pubkey response :
  new_PublicKey env tokenMint = Ok pubkey ->
  axios_post env PUMP_PORTAL_API
    (payload a env wallet (toBase58 pubkey) amount sl pf) post_config
  = Ok response ->
  data response = None \/ data response = Some [] ->
  let r := trade a env connection wallet tokenMint amount sl pf in
  r = ((request_events a env tokenMint amount
          (payload a env wallet (toBase58 pubkey) amount sl pf)
        ++ [Log Error "Empty response from PumpPortal API" []])%list,
       Fulfilled None)
  /\ count is_deserialize (fst r) = 0%nat.
Proof.
  intros Hkey Hpost Hdata. cbv zeta.
  assert (trade a env connection wallet tokenMint amount sl pf
          = ((request_events a env tokenMint amount
                (payload a env wallet (toBase58 pubkey) amount sl pf)
              ++ [Log Error "Empty response from PumpPortal API" []])%list,
             Fulfilled None)) as E.
  { rewrite trade_unfold, trade_try_eq, Hkey. cbv zeta. rewrite Hpost.
    unfold sign_send_confirm. destruct Hdata as [-> | ->]; reflexivity. }
  split; [exact E|]. rewrite E. cbn [fst]. rewrite count_app.
  destruct a; reflexivity.
Qed.

Lemma empty_payload_returns_null_witness :
  snd (trade Buy (sample_env (Ok {| data := Some [] |}))
         (sample_connection (Ok sample_signature) None) sample_wallet
         sample_mint num_1 None None) = Fulfilled None
  /\ logged Error "Empty response from PumpPortal API"
       (fst (trade Buy (sample_env (Ok {| data := Some [] |}))
               (sample_connection (Ok sample_signature) None) sample_wallet
               sample_mint num_1 None None)) = true.
Proof.
  rewrite (proj1 (empty_payload_returns_null Buy
                    (sample_env (Ok {| data := Some [] |}))
                    (sample_connection (Ok sample_signature) None) sample_wallet
                    sample_mint num_1 None None {| toBase58 := sample_mint |}
                    {| data := Some [] |} eq_refl eq_refl
                    (or_intror eq_refl))).
  split; reflexivity.
Defined.

(** C10.  When the [try] block of buy or sell throws an HTTP error whose
    body names a migration, whatever the status and so for 400 too, the
    operation returns [null] and the migration message is the one warning of
    the whole run: the warning of status 400 is not logged. *)
Theorem migration_precedes_status
    a env connection wallet tokenMint amount sl pf t (e : JsError) resp body :
  trade_try a env connection wallet tokenMint amount sl pf = (t, Throw e) ->
  response e = Some resp ->
  err_data resp = Some (Bytes body) ->
  mentions_migration (Buffer_toString_utf8 body) = true ->
  let r := trade a env connection wallet tokenMint amount sl pf in
  snd r = Fulfilled None
  /\ filter is_warning (fst r) = [migration_warning tokenMint]
  /\ logged Warn ("Invalid token or request parameters for "
                  ++ substring_0_8 tokenMint ++ "...") (fst r) = false.
Proof.
  intros Htry Hresp Hdata Hm. cbv zeta.
  rewrite (trade_thrown a _ _ _ _ _ _ _ _ _ _ Htry
             (trade_catch_migration a tokenMint e resp body Hresp Hdata Hm)).
  cbn [fst snd].
  destruct (thrown_try_is_quiet _ _ _ _ _ _ _ _ _ _ Htry) as [Hq _].
  split; [reflexivity|]. split.
  - rewrite filter_app, (no_warning_filter t Hq). reflexivity.
  - unfold logged. rewrite existsb_app.
    fold (logged Warn ("Invalid token or request parameters for "
                       ++ substring_0_8 tokenMint ++ "...") t).
    rewrite (no_warning_logged _ t Hq). reflexivity.
Qed.

Lemma migration_precedes_status_witness :
  status {| status := 400;
            err_data := Some (Bytes (list_byte_of_string
                                       "token has migrated to raydium")) |} = 400
  /\ logged Warn "Invalid token or request parameters for So111111..."
       (fst (trade Buy (sample_env (Err migrated_error))
               (sample_connection (Ok sample_signature) None) sample_wallet
               sample_mint num_1 None None)) = false.
Proof.
  split; [reflexivity|].
  apply (migration_precedes_status Buy (sample_env (Err migrated_error))
           (sample_connection (Ok sample_signature) None) sample_wallet
           sample_mint num_1 None None
           (fst (trade_try Buy (sample_env (Err migrated_error))
                   (sample_connection (Ok sample_signature) None) sample_wallet
                   sample_mint num_1 None None))
           migrated_error
           {| status := 400;
              err_data := Some (Bytes (list_byte_of_string
                                         "token has migrated to raydium")) |}
           (list_byte_of_string "token has migrated to raydium")
           eq_refl eq_refl eq_refl eq_refl).
Defined.

(** Without a migration in the body, status 400 does draw its warning. *)
Lemma status_400_is_warned
    a env connection wallet tokenMint amount sl pf t (e : JsError) resp body :
  trade_try a env connection wallet tokenMint amount sl pf = (t, Throw e) ->
  response e = Some resp ->
  err_data resp = Some (Bytes body) ->
  mentions_migration (Buffer_toString_utf8 body) = false ->
  status resp = 400 ->
  trade a env connection wallet tokenMint amount sl pf
  = ((t ++ [Log Error "PumpPortal API error: 400" [];
            Call_Buffer_from (Bytes body);
            Log Error ("Error details: " ++ Buffer_toString_utf8 body) [];
            invalid_request_warning tokenMint])%list,
     Fulfilled None).
Proof.
  intros Htry Hresp Hdata Hm Hstatus.
  apply (trade_thrown a _ _ _ _ _ _ _ _ _ _ Htry).
  apply (trade_catch_status_400 a tokenMint e resp body); assumption.
Qed.

(* ------------------------------------------------------------------ *)
(** ** Where the calls of a run come from *)

Lemma local_in (t : list Event) (ev : Event) :
  forallb is_local t = true -> In ev t -> is_local ev = true.
Proof. intros L H. rewrite forallb_forall in L. auto. Qed.

Lemma payload_log_local (d : PostData) : is_local (payload_log d) = true.
Proof. destruct d; reflexivity. Qed.

Lemma length_nonempty (d : bytes) : (List.length d =? 0)%nat = false -> d <> [].
Proof. destruct d; [discriminate|congruence]. Qed.

(** A call of a run that is not one of the handlers' is a call of the [try]
    block. *)
Lemma run_event_in_try a env connection wallet tokenMint amount sl pf ev :
  is_local ev = false ->
  In ev (fst (trade a env connection wallet tokenMint amount sl pf)) ->
  In ev (fst (trade_try a env connection wallet tokenMint amount sl pf)).
Proof.
  intros Hev H.
  destruct (trade_from_try a env connection wallet tokenMint amount sl pf)
    as (t & v & E & L & _).
  rewrite E in H. cbn [fst] in H. apply in_app_or in H.
  destruct H as [H|H]; [exact H|].
  rewrite (local_in t ev L H) in Hev. discriminate.
Qed.

(** The calls of a [try] block: the parser, then the request for the mint
    the parser gave, then the calls of the common tail on the response. *)
Lemma try_event_cases a env connection wallet tokenMint amount sl pf ev :
  is_local ev = false ->
  In ev (fst (trade_try a env connection wallet tokenMint amount sl pf)) ->
  ev = Call_PublicKey tokenMint
  \/ exists pubkey,
       new_PublicKey env tokenMint = Ok pubkey
       /\ (ev = Call_post PUMP_PORTAL_API
                  (payload a env wallet (toBase58 pubkey) amount sl pf) post_config
           \/ exists response,
                axios_post env PUMP_PORTAL_API
                  (payload a env wallet (toBase58 pubkey) amount sl pf) post_config
                = Ok response
                /\ In ev (fst (sign_send_confirm env connection wallet
                                 (action_word a) response))).
Proof.
  intros Hev. rewrite trade_try_eq.
  destruct (new_PublicKey env tokenMint) as [pubkey|e] eqn:Hkey.
  2: { destruct e; cbn; intros H;
       repeat (destruct H as [H|H]; [subst ev; auto; discriminate|]);
       contradiction. }
  cbv zeta.
  destruct (axios_post env PUMP_PORTAL_API _ post_config) as [response|e] eqn:Hpost.
  - destruct (sign_send_confirm env connection wallet (action_word a) response)
      as [t c] eqn:Htail.
    cbn [after fst]. intros H. apply in_app_or in H. destruct H as [H|H].
    + destruct H as [H|[H|[H|[H|[]]]]]; subst ev; eauto.
      * discriminate.
      * rewrite payload_log_local in Hev. discriminate.
    + right. exists pubkey. split; [reflexivity|]. right.
      exists response. split; [exact Hpost|]. rewrite Htail. exact H.
  - cbn [fst]. intros H. apply in_app_or in H. destruct H as [H|H].
    + destruct H as [H|[H|[H|[H|[]]]]]; subst ev; eauto.
      * discriminate.
      * rewrite payload_log_local in Hev. discriminate.
    + destruct H as [H|[]]. subst ev. discriminate.
Qed.

(** Closes a goal whose hypothesis places a call in a list that does not
    hold it. *)
Ltac absent H :=
  cbn in H;
  repeat (destruct H as [H|H]; [discriminate H|]);
  contradiction.

(** Leaves of a hypothesis that places a call in a list the equations that
    may hold. *)
Ltac find_call H :=
  cbn [In app fst] in H;
  repeat (destruct H as [H|H]; [try discriminate H|]);
  try contradiction.

(** The submission of the common tail: what is sent is the response,
    deserialised, signed by the wallet, and serialised. *)
Lemma tail_submission env connection wallet word response raw options :
  In (Call_sendRawTransaction raw options)
    (fst (sign_send_confirm env connection wallet word response)) ->
  exists d tx stx,
    data response = Some d
    /\ d <> []
    /\ VersionedTransaction_deserialize env d = Ok tx
    /\ transaction_sign env tx [wallet] = Ok stx
    /\ transaction_serialize env stx = Ok raw
    /\ options = send_options.
Proof.
  unfold sign_send_confirm.
  destruct (data response) as [d|] eqn:Hdata; [|intros H; absent H].
  destruct (List.length d =? 0)%nat eqn:Hlen; [intros H; absent H|].
  apply length_nonempty in Hlen.
  cbn [Buffer_from call bind app logger_info].
  destruct (VersionedTransaction_deserialize env d) as [tx|] eqn:Hde;
    cbn [call bind app logger_info fst]; [|intros H; absent H].
  destruct (transaction_sign env tx [wallet]) as [stx|] eqn:Hsign;
    cbn [call bind app logger_info fst]; [|intros H; absent H].
  destruct (transaction_serialize env stx) as [raw'|] eqn:Hser;
    cbn [call bind app logger_info fst]; [|intros H; absent H].
  intros H.
  assert (Call_sendRawTransaction raw' send_options
          = Call_sendRawTransaction raw options) as Same.
  { revert H.
    destruct (sendRawTransaction connection raw' send_options) as [sig|];
      cbn [call bind app logger_info fst].
    2: { intros H. find_call H. exact H. }
    destruct (getLatestBlockhash connection finalized) as [latest|];
      cbn [call bind app logger_info fst].
    2: { intros H. find_call H. exact H. }
    destruct (confirmTransaction connection _ confirmed) as [conf|];
      cbn [call bind app logger_info fst].
    2: { intros H. find_call H. exact H. }
    destruct (value_err conf);
      cbn [call bind app logger_info logger_error return_ fst];
      intros H; find_call H; exact H. }
  injection Same as <- <-.
  exists d, tx, stx. auto 10.
Qed.

(** The confirmation of the common tail: it is awaited for the signature
    the submission answered, with the blockhash fetched at [finalized]. *)
Lemma tail_confirmation env connection wallet word response strategy c :
  In (Call_confirmTransaction strategy c)
    (fst (sign_send_confirm env connection wallet word response)) ->
  exists raw latest,
    sendRawTransaction connection raw send_options = Ok (cs_signature strategy)
    /\ getLatestBlockhash connection finalized = Ok latest
    /\ cs_blockhash strategy = blockhash latest
    /\ cs_lastValidBlockHeight strategy = lastValidBlockHeight latest
    /\ c = confirmed.
Proof.
  unfold sign_send_confirm.
  destruct (data response) as [d|] eqn:Hdata; [|intros H; absent H].
  destruct (List.length d =? 0)%nat eqn:Hlen; [intros H; absent H|].
  cbn [Buffer_from call bind app logger_info].
  destruct (VersionedTransaction_deserialize env d) as [tx|] eqn:Hde;
    cbn [call bind app logger_info fst]; [|intros H; absent H].
  destruct (transaction_sign env tx [wallet]) as [stx|] eqn:Hsign;
    cbn [call bind app logger_info fst]; [|intros H; absent H].
  destruct (transaction_serialize env stx) as [raw|] eqn:Hser;
    cbn [call bind app logger_info fst]; [|intros H; absent H].
  destruct (sendRawTransaction connection raw send_options) as [sig|] eqn:Hsend;
    cbn [call bind app logger_info fst]; [|intros H; absent H].
  destruct (getLatestBlockhash connection finalized) as [latest|] eqn:Hlatest;
    cbn [call bind app logger_info fst]; [|intros H; absent H].
  intros H.
  assert (Call_confirmTransaction
            {| cs_signature := sig; cs_blockhash := blockhash latest;
               cs_lastValidBlockHeight := lastValidBlockHeight latest |} confirmed
          = Call_confirmTransaction strategy c) as Same.
  { revert H.
    destruct (confirmTransaction connection _ confirmed) as [conf|];
      cbn [call bind app logger_info fst].
    2: { intros H. find_call H. exact H. }
    destruct (value_err conf);
      cbn [call bind app logger_info logger_error return_ fst];
      intros H; find_call H; exact H. }
  injection Same as <- <-. cbn.
  exists raw, latest. auto 10.
Qed.

Lemma count_zero_not_in p (t : list Event) (ev : Event) :
  count p t = 0%nat -> In ev t -> p ev = false.
Proof.
  unfold count. induction t as [|x t IH]; cbn; [contradiction|].
  destruct (p x) eqn:Hx; cbn; [discriminate|].
  intros H [<-|Hin]; auto.
Qed.

Lemma count_post_posted (t : list Event) :
  count is_post t = List.length (posted t).
Proof.
  unfold count. induction t as [|ev t IH]; [reflexivity|].
  destruct ev; cbn; rewrite ?IH; auto.
Qed.

(** Every invocation begins with its opening message and the call of the
    address parser: no other collaborator is called before the token
    identifier is validated. *)
Theorem validation_comes_first a env connection wallet tokenMint amount sl pf :
  exists rest,
    fst (trade a env connection wallet tokenMint amount sl pf)
    = Log Info (opening a env tokenMint amount) []
      :: Call_PublicKey tokenMint :: rest.
Proof.
  destruct (trade_from_try a env connection wallet tokenMint amount sl pf)
    as (t & v & E & _ & _).
  rewrite E. cbn [fst]. rewrite trade_try_eq.
  destruct (new_PublicKey env tokenMint) as [pubkey|e];
    [|destruct e; cbn; eauto].
  cbv zeta.
  destruct (axios_post env PUMP_PORTAL_API _ post_config) as [response|e].
  - destruct (sign_send_confirm env connection wallet (action_word a) response).
    cbn. eauto.
  - cbn. eauto.
Qed.

(** Whatever is posted in a run goes to the fixed endpoint with the fixed
    configuration (form content type, binary response, 10 s timeout) and is
    the payload built from the canonical form the parser gave the mint. *)
Theorem every_request_is_the_payload
    a env connection wallet tokenMint amount sl pf url d config :
  In (Call_post url d config)
    (fst (trade a env connection wallet tokenMint amount sl pf)) ->
  url = "https://pumpportal.fun/api/trade-local"
  /\ headers config = [("Content-Type", "application/x-www-form-urlencoded")]
  /\ responseType config = "arraybuffer"
  /\ timeout config = 10000
  /\ exists pubkey,
       new_PublicKey env tokenMint = Ok pubkey
       /\ d = payload a env wallet (toBase58 pubkey) amount sl pf.
Proof.
  intros H.
  apply run_event_in_try in H; [|reflexivity].
  apply try_event_cases in H; [|reflexivity].
  destruct H as [H|(pubkey & Hkey & [H|(response & Hpost & H)])].
  - discriminate.
  - injection H as -> -> ->. repeat split; eauto.
  - pose proof (sign_send_confirm_paths env connection wallet (action_word a)
                  response) as P.
    cbv zeta in P. destruct P as (_ & P & _).
    apply (count_zero_not_in _ _ _ P) in H. discriminate.
Qed.

Lemma every_request_is_the_payload_witness :
  PUMP_PORTAL_API = "https://pumpportal.fun/api/trade-local"
  /\ headers post_config = [("Content-Type", "application/x-www-form-urlencoded")]
  /\ responseType post_config = "arraybuffer"
  /\ timeout post_config = 10000
  /\ exists pubkey,
       new_PublicKey (sample_env (Ok sample_response)) sample_mint = Ok pubkey
       /\ payload Sell (sample_env (Ok sample_response)) sample_wallet sample_mint
            num_1000000 None None
          = payload Sell (sample_env (Ok sample_response)) sample_wallet
              (toBase58 pubkey) num_1000000 None None.
Proof.
  apply (every_request_is_the_payload Sell (sample_env (Ok sample_response))
           (sample_connection (Ok sample_signature) None) sample_wallet
           sample_mint num_1000000 None None).
  vm_compute. do 3 right. left. reflexivity.
Defined.

(** Once the parser accepts the mint, exactly one request is posted, on
    every path: whether the builder answers or not, and whatever happens
    afterwards. *)
Theorem valid_mint_posts_once
    a env connection wallet tokenMint amount sl pf pubkey :
  new_PublicKey env tokenMint = Ok pubkey ->
  count is_post (fst (trade a env connection wallet tokenMint amount sl pf))
  = 1%nat.
Proof.
  intros Hkey. rewrite count_post_posted.
  rewrite (posted_payload a env connection wallet tokenMint amount sl pf pubkey Hkey).
  reflexivity.
Qed.

Lemma valid_mint_posts_once_witness :
  count is_post
    (fst (trade Buy (sample_env (Err migrated_error))
            (sample_connection (Ok sample_signature) None) sample_wallet
            sample_mint num_1 None None)) = 1%nat.
Proof.
  apply (valid_mint_posts_once Buy (sample_env (Err migrated_error))
           (sample_connection (Ok sample_signature) None) sample_wallet
           sample_mint num_1 None None {| toBase58 := sample_mint |}).
  reflexivity.
Defined.

(** Whatever is submitted in a run is the builder's answer to the request
    of this run, deserialised, signed by the caller's wallet alone, and
    serialised; it is submitted with [skipPreflight: false] and
    [maxRetries: 3]. *)
Theorem submitted_is_the_signed_build
    a env connection wallet tokenMint amount sl pf raw options :
  In (Call_sendRawTransaction raw options)
    (fst (trade a env connection wallet tokenMint amount sl pf)) ->
  exists pubkey response d tx stx,
    new_PublicKey env tokenMint = Ok pubkey
    /\ axios_post env PUMP_PORTAL_API
         (payload a env wallet (toBase58 pubkey) amount sl pf) post_config
       = Ok response
    /\ data response = Some d
    /\ d <> []
    /\ VersionedTransaction_deserialize env d = Ok tx
    /\ transaction_sign env tx [wallet] = Ok stx
    /\ transaction_serialize env stx = Ok raw
    /\ skipPreflight options = false
    /\ maxRetries options = 3.
Proof.
  intros H.
  apply run_event_in_try in H; [|reflexivity].
  apply try_event_cases in H; [|reflexivity].
  destruct H as [H|(pubkey & Hkey & [H|(response & Hpost & H)])];
    try discriminate.
  apply tail_submission in H.
  destruct H as (d & tx & stx & Hdata & Hne & Hde & Hsign & Hser & ->).
  exists pubkey, response, d, tx, stx. cbn. auto 12.
Qed.

Lemma submitted_is_the_signed_build_witness :
  exists pubkey response d tx stx,
    new_PublicKey (sample_env (Ok sample_response)) sample_mint = Ok pubkey
    /\ axios_post (sample_env (Ok sample_response)) PUMP_PORTAL_API
         (payload Buy (sample_env (Ok sample_response)) sample_wallet
            (toBase58 pubkey) num_1 None None) post_config
       = Ok response
    /\ data response = Some d
    /\ d <> []
    /\ VersionedTransaction_deserialize (sample_env (Ok sample_response)) d = Ok tx
    /\ transaction_sign (sample_env (Ok sample_response)) tx [sample_wallet] = Ok stx
    /\ transaction_serialize (sample_env (Ok sample_response)) stx
       = Ok sample_transaction
    /\ skipPreflight send_options = false
    /\ maxRetries send_options = 3.
Proof.
  apply (submitted_is_the_signed_build Buy (sample_env (Ok sample_response))
           (sample_connection (Err simulation_error) None) sample_wallet
           sample_mint num_1 None None sample_transaction send_options).
  vm_compute. do 10 right. left. reflexivity.
Defined.

(** Whatever confirmation is awaited in a run is that of the signature the
    submission of this run answered, at commitment [confirmed], within the
    validity window of the blockhash fetched at commitment [finalized]. *)
Theorem confirmation_awaits_the_submission
    a env connection wallet tokenMint amount sl pf strategy c :
  In (Call_confirmTransaction strategy c)
    (fst (trade a env connection wallet tokenMint amount sl pf)) ->
  exists raw latest,
    sendRawTransaction connection raw send_options = Ok (cs_signature strategy)
    /\ getLatestBlockhash connection finalized = Ok latest
    /\ cs_blockhash strategy = blockhash latest
    /\ cs_lastValidBlockHeight strategy = lastValidBlockHeight latest
    /\ c = confirmed.
Proof.
  intros H.
  apply run_event_in_try in H; [|reflexivity].
  apply try_event_cases in H; [|reflexivity].
  destruct H as [H|(pubkey & Hkey & [H|(response & Hpost & H)])];
    try discriminate.
  apply tail_confirmation in H. exact H.
Qed.

Lemma confirmation_awaits_the_submission_witness :
  exists raw latest,
    sendRawTransaction (sample_connection (Ok sample_signature) None) raw
      send_options = Ok sample_signature
    /\ getLatestBlockhash (sample_connection (Ok sample_signature) None) finalized
       = Ok latest
    /\ "EkSnNWid2cvwEVnVx9aBqawnmiCNiDgp3gUdkDPTKN1N" = blockhash latest
    /\ 3090 = lastValidBlockHeight latest
    /\ confirmed = confirmed.
Proof.
  apply (confirmation_awaits_the_submission Sell
           (sample_env (Ok sample_response))
           (sample_connection (Ok sample_signature) None) sample_wallet
           sample_mint num_1000000 None None
           (st_strategy (sample_stages None)) confirmed).
  vm_compute. do 13 right. left. reflexivity.
Defined.

(* ------------------------------------------------------------------ *)
(** ** The messages of a run and its result *)

(** The common tail logs an error exactly when it returns [null], and no
    warning. *)
Lemma tail_error_logs env connection wallet word response :
  let m := sign_send_confirm env connection wallet word response in
  match snd m with
  | Return None => existsb is_error_log (fst m) = true
  | Return (Some _) => existsb is_error_log (fst m) = false
  | _ => True
  end.
Proof.
  unfold sign_send_confirm.
  destruct (data response) as [d|]; [|reflexivity].
  destruct (List.length d =? 0)%nat; [reflexivity|].
  cbn [Buffer_from call bind app logger_info].
  repeat (next_call; [|exact I]).
  match goal with
  | |- context [value_err ?c] => destruct (value_err c)
  end; reflexivity.
Qed.

Lemma try_error_logs a env connection wallet tokenMint amount sl pf :
  let m := trade_try a env connection wallet tokenMint amount sl pf in
  match snd m with
  | Return None => existsb is_error_log (fst m) = true
  | Return (Some _) => existsb is_error_log (fst m) = false
  | _ => True
  end.
Proof.
  cbv zeta. rewrite trade_try_eq.
  destruct (new_PublicKey env tokenMint) as [pubkey|e];
    [|destruct e; cbn; auto].
  cbv zeta.
  destruct (axios_post env PUMP_PORTAL_API _ post_config) as [response|e];
    [|exact I].
  pose proof (tail_error_logs env connection wallet (action_word a) response) as P.
  cbv zeta in P.
  destruct (sign_send_confirm env connection wallet (action_word a) response)
    as [t c].
  cbn [after fst snd] in *. rewrite existsb_app.
  destruct c as [x|[sig|]|e]; auto.
  - rewrite P. destruct a; reflexivity.
  - rewrite P. apply orb_true_r.
Qed.

(** A handler that does not throw has logged at least one error. *)
Lemma trade_catch_logs_error a tokenMint (error : Thrown) :
  match snd (trade_catch a tokenMint error) with
  | Throw _ => True
  | _ => existsb is_error_log (fst (trade_catch a tokenMint error)) = true
  end.
Proof.
  destruct error as [e|text|e text]; destruct a; open_catch; try exact I;
    destruct (response e) as [resp|];
    try (unfold catch_response; destruct (err_data resp) as [[b|s]|]; cbn;
         try destruct (mentions_migration (Buffer_toString_utf8 b));
         destruct (status resp =? 400); reflexivity).
  - destruct (truthy_string (message e)); [|reflexivity].
    destruct (mentions_exhaustion (template_string (message e)));
      destruct (logs e) as [lines|]; cbn; rewrite ?forEach_log_line; reflexivity.
  - destruct (truthy_string (message e)); reflexivity.
  - exact I.
  - reflexivity.
Qed.

(** The kinds of run. *)
Lemma run_logs_cases a env connection wallet tokenMint amount sl pf :
  let r := trade a env connection wallet tokenMint amount sl pf in
  match snd r with
  | Fulfilled None => existsb is_error_log (fst r) = true
  | Fulfilled (Some _) =>
      existsb is_error_log (fst r) = false /\ existsb is_warning (fst r) = false
  | Rejected _ => True
  end.
Proof.
  cbv zeta.
  destruct (trade_from_try a env connection wallet tokenMint amount sl pf)
    as (t & v & E & _ & Hv).
  pose proof (try_error_logs a env connection wallet tokenMint amount sl pf) as P.
  pose proof (trade_try_paths a env connection wallet tokenMint amount sl pf) as Q.
  cbv zeta in P, Q. destruct Q as (_ & _ & _ & _ & Hwarn & _).
  rewrite E. cbn [fst snd]. rewrite !existsb_app.
  destruct (snd (trade_try a env connection wallet tokenMint amount sl pf))
    as [x|[sig|]|e]; [tauto| | |].
  - destruct Hv as [-> ->]. rewrite P, Hwarn. auto.
  - destruct Hv as [-> ->]. rewrite P. auto.
  - destruct Hv as [[Hcatch ->]|(e' & Hcatch & ->)]; [|exact I].
    pose proof (trade_catch_logs_error a tokenMint e) as L.
    rewrite Hcatch in L. cbn [fst snd] in L. rewrite L. apply orb_true_r.
Qed.

(** An invocation that returns [null] has logged at error level: a failure
    that ends in [null] is always reported to the sink.  A run that returns
    a signature has logged neither an error nor a warning.  (Nothing is said
    of a run whose promise is rejected.) *)
Theorem returned_null_is_logged a env connection wallet tokenMint amount sl pf :
  let r := trade a env connection wallet tokenMint amount sl pf in
  match snd r with
  | Fulfilled None => existsb is_error_log (fst r) = true
  | Fulfilled (Some _) =>
      existsb is_error_log (fst r) = false /\ existsb is_warning (fst r) = false
  | Rejected _ => True
  end.
Proof. exact (run_logs_cases a env connection wallet tokenMint amount sl pf). Qed.

(* ------------------------------------------------------------------ *)
(** ** The default sink *)

Lemma deliver_default (t : list Event) (c : Console) :
  deliver defaultLogger t c
  = {| stdout := (stdout c ++ lines_at is_Info t)%list;
       stderr := (stderr c ++ lines_at is_Warn_or_Error t)%list |}.
Proof.
  revert c. induction t as [|ev t IH]; intros c.
  - cbn. rewrite !app_nil_r. destruct c; reflexivity.
  - cbn [deliver]. rewrite IH.
    destruct ev as [[] m args| | | | | | | | | |]; cbn;
      rewrite <- ?app_assoc; try reflexivity; destruct c; reflexivity.
Qed.

Lemma no_stderr_lines (t : list Event) :
  lines_at is_Warn_or_Error t = []
  <-> existsb is_error_log t = false /\ existsb is_warning t = false.
Proof.
  induction t as [|ev t IH]; [cbn; tauto|].
  destruct ev as [[] m args| | | | | | | | | |]; cbn; try exact IH;
    split; try discriminate; intros [? ?]; discriminate.
Qed.

(** With the sink the module starts with, an invocation that returns [null]
    has written to the standard error, and one that returns a signature has
    written nothing to it.  (Nothing is said of a run whose promise is
    rejected.) *)
Theorem default_sink_stderr_on_null
    a env connection wallet tokenMint amount sl pf :
  let r := trade a env connection wallet tokenMint amount sl pf in
  let c := deliver (logger initial_state) (fst r) {| stdout := []; stderr := [] |} in
  match snd r with
  | Fulfilled None => stderr c <> []
  | Fulfilled (Some _) => stderr c = []
  | Rejected _ => True
  end.
Proof.
  cbv zeta. cbn [logger initial_state]. rewrite deliver_default. cbn [stderr app].
  pose proof (run_logs_cases a env connection wallet tokenMint amount sl pf) as P.
  cbv zeta in P.
  destruct (snd (trade a env connection wallet tokenMint amount sl pf))
    as [[sig|]|e]; [| |exact I].
  - apply no_stderr_lines. exact P.
  - intros H. apply no_stderr_lines in H. destruct H as [H _].
    rewrite H in P. discriminate.
Qed.

(* ------------------------------------------------------------------ *)
(** ** The handlers on an HTTP error *)

Lemma trade_catch_response a tokenMint e resp :
  response e = Some resp ->
  trade_catch a tokenMint e = (response_events tokenMint resp, Return None).
Proof.
  intros Hresp.
  destruct a; open_catch;
    unfold catch_response, response_events, body_events, names_migration;
    rewrite Hresp; destruct (err_data resp) as [[b|s]|];
    cbn [Buffer_from call bind try_catch app logger_error ret];
    try destruct (mentions_migration (Buffer_toString_utf8 b));
    destruct (status resp =? 400); reflexivity.
Qed.

(** What the handlers do with an HTTP error, in full: the status at error
    level; then the body as text at error level when it is bytes, or, when
    [Buffer.from] rejects it, the thrown [TypeError] is caught and the raw
    value is logged at error level; a missing body adds nothing.  Then the
    migration warning when the text names a migration, else the warning of
    status 400 when the status is 400.  The operation returns [null]. *)
Theorem http_error_is_handled
    a env connection wallet tokenMint amount sl pf t (e : JsError) resp :
  trade_try a env connection wallet tokenMint amount sl pf = (t, Throw e) ->
  response e = Some resp ->
  trade a env connection wallet tokenMint amount sl pf
  = ((t ++ [Log Error ("PumpPortal API error: " ++ string_of_Z (status resp)) []]
        ++ match err_data resp with
           | None => []
           | Some (Bytes b) =>
               [Call_Buffer_from (Bytes b);
                Log Error ("Error details: " ++ Buffer_toString_utf8 b) []]
           | Some (Opaque s) =>
               [Call_Buffer_from (Opaque s);
                Raised (TypeError "The first argument must be of type string or an instance of Buffer, ArrayBuffer, or Array or an Array-like Object.");
                Log Error ("Error response: " ++ s) []]
           end
        ++ (if names_migration resp then [migration_warning tokenMint]
            else if status resp =? 400 then [invalid_request_warning tokenMint]
            else []))%list,
     Fulfilled None).
Proof.
  intros Htry Hresp.
  rewrite (trade_thrown a _ _ _ _ _ _ _ _ _ _ Htry
             (trade_catch_response a tokenMint e resp Hresp)).
  reflexivity.
Qed.

Lemma http_error_is_handled_witness :
  trade Buy (sample_env (Err opaque_error))
    (sample_connection (Ok sample_signature) None) sample_wallet sample_mint
    num_1 None None
  = ((fst (trade_try Buy (sample_env (Err opaque_error))
             (sample_connection (Ok sample_signature) None) sample_wallet
             sample_mint num_1 None None)
      ++ [Log Error "PumpPortal API error: 500" []]
      ++ [Call_Buffer_from (Opaque "[object Object]");
          Raised (TypeError "The first argument must be of type string or an instance of Buffer, ArrayBuffer, or Array or an Array-like Object.");
          Log Error "Error response: [object Object]" []]
      ++ [])%list,
     Fulfilled None).
Proof.
  apply (http_error_is_handled Buy (sample_env (Err opaque_error))
           (sample_connection (Ok sample_signature) None) sample_wallet
           sample_mint num_1 None None
           (fst (trade_try Buy (sample_env (Err opaque_error))
                   (sample_connection (Ok sample_signature) None) sample_wallet
                   sample_mint num_1 None None))
           opaque_error
           {| status := 500; err_data := Some (Opaque "[object Object]") |}
           eq_refl eq_refl).
Defined.

(** For an HTTP error, the warning of status 400 is logged exactly when the
    status is 400 and the body does not name a migration: also when the body
    is missing, and when it is not bytes. *)
Theorem status_400_warning_iff
    a env connection wallet tokenMint amount sl pf t (e : JsError) resp :
  trade_try a env connection wallet tokenMint amount sl pf = (t, Throw e) ->
  response e = Some resp ->
  logged Warn ("Invalid token or request parameters for "
               ++ substring_0_8 tokenMint ++ "...")
    (fst (trade a env connection wallet tokenMint amount sl pf))
  = (status resp =? 400) && negb (names_migration resp).
Proof.
  intros Htry Hresp.
  rewrite (trade_thrown a _ _ _ _ _ _ _ _ _ _ Htry
             (trade_catch_response a tokenMint e resp Hresp)).
  cbn [fst].
  destruct (thrown_try_is_quiet _ _ _ _ _ _ _ _ _ _ Htry) as [Hq _].
  unfold logged. rewrite existsb_app.
  fold (logged Warn ("Invalid token or request parameters for "
                     ++ substring_0_8 tokenMint ++ "...") t).
  rewrite (no_warning_logged _ t Hq).
  unfold response_events, body_events, names_migration.
  destruct (err_data resp) as [[b|s]|];
    try destruct (mentions_migration (Buffer_toString_utf8 b));
    destruct (status resp =? 400); cbn; rewrite ?String.eqb_refl; reflexivity.
Qed.

Lemma status_400_warning_iff_witness :
  logged Warn "Invalid token or request parameters for So111111..."
    (fst (trade Sell (sample_env (Err bad_request_error))
            (sample_connection (Ok sample_signature) None) sample_wallet
            sample_mint num_1000000 None None))
  = true.
Proof.
  apply (status_400_warning_iff Sell (sample_env (Err bad_request_error))
           (sample_connection (Ok sample_signature) None) sample_wallet
           sample_mint num_1000000 None None
           (fst (trade_try Sell (sample_env (Err bad_request_error))
                   (sample_connection (Ok sample_signature) None) sample_wallet
                   sample_mint num_1000000 None None))
           bad_request_error
           {| status := 400; err_data := None |} eq_refl eq_refl).
Defined.

(* ------------------------------------------------------------------ *)
(** ** The handlers on other errors *)

(** For an error without a response, sell logs one line, whatever the error
    carries, and so does buy when the error has no message (or an empty
    one): the message, or the text of the error when there is no message.
    The execution log lines of such an error are not listed.  The operation
    returns [null]. *)
Theorem plain_error_logs_one_line
    a env connection wallet tokenMint amount sl pf t (e : JsError) :
  trade_try a env connection wallet tokenMint amount sl pf = (t, Throw e) ->
  response e = None ->
  a = Sell \/ truthy_string (message e) = false ->
  trade a env connection wallet tokenMint amount sl pf
  = ((t ++ [Log Error ("PumpPortal " ++ action_name a ++ " error: "
                       ++ (if truthy_string (message e)
                           then template_string (message e)
                           else shown e)) []])%list,
     Fulfilled None).
Proof.
  intros Htry Hresp Hcase.
  apply (trade_thrown a _ _ _ _ _ _ _ _ _ _ Htry).
  destruct a; open_catch; rewrite Hresp.
  - destruct Hcase as [Hcase|Hcase]; [discriminate|].
    rewrite Hcase. reflexivity.
  - destruct (truthy_string (message e)); reflexivity.
Qed.

Lemma plain_error_logs_one_line_witness :
  trade Buy (sample_env (Ok sample_response))
    (sample_connection (Err silent_error) None) sample_wallet sample_mint
    num_1 None None
  = ((sample_thrown_prefix silent_error
      ++ [Log Error "PumpPortal buy error: [object Object]" []])%list,
     Fulfilled None).
Proof.
  apply (plain_error_logs_one_line Buy (sample_env (Ok sample_response))
           (sample_connection (Err silent_error) None) sample_wallet sample_mint
           num_1 None None (sample_thrown_prefix silent_error) silent_error
           eq_refl eq_refl (or_intror eq_refl)).
Defined.

(* ------------------------------------------------------------------ *)
(** ** Where the exhaustion report appears *)

(** The common tail logs no message of the report. *)
Lemma tail_no_report env connection wallet tokenMint a response :
  existsb (is_exhaustion_report tokenMint)
    (fst (sign_send_confirm env connection wallet (action_word a) response))
  = false.
Proof.
  unfold sign_send_confirm.
  destruct (data response) as [d|]; [|reflexivity].
  destruct (List.length d =? 0)%nat; [reflexivity|].
  cbn [Buffer_from call bind app logger_info].
  repeat (next_call; [|reflexivity]).
  match goal with
  | |- context [value_err ?c] => destruct (value_err c)
  end; destruct a; reflexivity.
Qed.

(** Neither does a [try] block. *)
Lemma try_no_report a env connection wallet tokenMint amount sl pf :
  existsb (is_exhaustion_report tokenMint)
    (fst (trade_try a env connection wallet tokenMint amount sl pf))
  = false.
Proof.
  rewrite trade_try_eq.
  destruct (new_PublicKey env tokenMint) as [pubkey|e];
    [|destruct e; destruct a; reflexivity].
  cbv zeta.
  destruct (axios_post env PUMP_PORTAL_API _ post_config) as [response|e];
    [|destruct a; reflexivity].
  pose proof (tail_no_report env connection wallet tokenMint a response) as P.
  destruct (sign_send_confirm env connection wallet (action_word a) response)
    as [t c].
  cbn [after fst] in *. rewrite existsb_app, P.
  destruct a; reflexivity.
Qed.

(** The branch for an error with a response logs no message of the
    report. *)
Lemma response_no_report tokenMint resp :
  existsb (is_exhaustion_report tokenMint) (response_events tokenMint resp)
  = false.
Proof.
  unfold response_events, body_events.
  destruct (err_data resp) as [[b|s]|];
    destruct (names_migration resp); destruct (status resp =? 400);
    reflexivity.
Qed.

Lemma line_events_report tokenMint (lines : list string) :
  existsb (is_exhaustion_report tokenMint)
    (Log Error "Transaction Logs:" [] :: map line_event lines) = true.
Proof. reflexivity. Qed.

(** The report of the handler of buy on an Error-like value. *)
Lemma buy_catch_report tokenMint (e : JsError) :
  existsb (is_exhaustion_report tokenMint) (fst (buy_catch tokenMint e))
  = negb (is_some (response e))
    && truthy_string (message e)
    && (mentions_exhaustion (template_string (message e)) || is_some (logs e)).
Proof.
  destruct (response e) as [resp|] eqn:Hresp.
  - pose proof (trade_catch_response Buy tokenMint e resp Hresp) as E.
    cbn [trade_catch] in E. rewrite E. cbn [fst is_some negb andb].
    apply response_no_report.
  - open_catch. rewrite Hresp. cbn [is_some negb andb].
    destruct (truthy_string (message e)); [|reflexivity].
    cbn [andb].
    destruct (mentions_exhaustion (template_string (message e)));
      destruct (logs e) as [lines|]; cbn [is_some orb];
      cbn [bind when logger_error app ret return_ fst];
      rewrite ?forEach_log_line; reflexivity.
Qed.

(** The report of the handlers on any thrown value: none by sell, and none
    by buy on a value that is not Error-like (the handler throws before the
    diagnostic and before the log listing). *)
Lemma trade_catch_report a tokenMint (error : Thrown) :
  existsb (is_exhaustion_report tokenMint) (fst (trade_catch a tokenMint error))
  = match a, error with
    | Buy, ErrorLike e =>
        negb (is_some (response e))
        && truthy_string (message e)
        && (mentions_exhaustion (template_string (message e))
            || is_some (logs e))
    | _, _ => false
    end.
Proof.
  destruct a, error as [e|text|e text]; cbn [trade_catch];
    try apply buy_catch_report; try reflexivity.
  - open_catch. destruct (response e) as [resp|] eqn:Hresp; [|reflexivity].
    pose proof (trade_catch_response Buy tokenMint e resp Hresp) as E.
    cbn [trade_catch] in E. revert E. open_catch. rewrite Hresp.
    intros ->. apply response_no_report.
  - destruct (response e) as [resp|] eqn:Hresp.
    + pose proof (trade_catch_response Sell tokenMint e resp Hresp) as E.
      cbn [trade_catch] in E. rewrite E. apply response_no_report.
    + open_catch. rewrite Hresp.
      destruct (truthy_string (message e)); reflexivity.
  - open_catch. destruct (response e) as [resp|] eqn:Hresp; [|reflexivity].
    pose proof (trade_catch_response Sell tokenMint e resp Hresp) as E.
    cbn [trade_catch] in E. revert E. open_catch. rewrite Hresp.
    intros ->. apply response_no_report.
Qed.

(** The exhaustion report of buy (the six lines of the diagnostic, the
    heading of the log listing, the listed lines) appears in a run exactly
    when the operation is buy and its [try] block threw an Error-like value
    that has no HTTP response, has a non-empty message, and either names the
    exhaustion in its message or carries an array of log lines.  A sell
    never shows any of it; neither does a buy whose error carries a
    response, or has no message, whatever its log lines say, nor a buy
    whose thrown value is nullish or has a message that is not a string. *)
Theorem exhaustion_report_iff a env connection wallet tokenMint amount sl pf :
  existsb (is_exhaustion_report tokenMint)
    (fst (trade a env connection wallet tokenMint amount sl pf))
  = match a, snd (trade_try a env connection wallet tokenMint amount sl pf) with
    | Buy, Throw (ErrorLike e) =>
        negb (is_some (response e))
        && truthy_string (message e)
        && (mentions_exhaustion (template_string (message e))
            || is_some (logs e))
    | _, _ => false
    end.
Proof.
  destruct (trade_from_try a env connection wallet tokenMint amount sl pf)
    as (t & v & E & _ & Hv).
  rewrite E. cbn [fst]. rewrite existsb_app, try_no_report. cbn [orb].
  destruct a;
    destruct (snd (trade_try _ env connection wallet tokenMint amount sl pf))
      as [x|w|e]; try tauto;
    try (destruct Hv as [_ ->]; reflexivity);
    match goal with
    | |- context [trade _] => idtac
    | |- existsb _ t = _ =>
        assert (t = fst (trade_catch _ tokenMint e)) as ->
          by (destruct Hv as [[Hcatch _]|(e' & Hcatch & _)];
              rewrite Hcatch; reflexivity);
        rewrite trade_catch_report; destruct e; reflexivity
    end.
Qed.

(* ------------------------------------------------------------------ *)
(** ** The amounts posted *)

Lemma form_encode_uint (d : Decimal.uint) :
  form_encode (NilEmpty.string_of_uint d) = NilEmpty.string_of_uint d.
Proof.
  induction d; cbn [NilEmpty.string_of_uint form_encode]; rewrite ?IHd;
    reflexivity.
Qed.

(** A decimal rendering is left as it is by the form encoding. *)
Lemma form_encode_Z (z : Z) : form_encode (string_of_Z z) = string_of_Z z.
Proof.
  unfold string_of_Z. destruct (Z.to_int z) as [d|d];
    cbn [NilZero.string_of_int NilZero.string_of_uint].
  - destruct d; try reflexivity; apply form_encode_uint.
  - change (form_encode (String "-" (NilZero.string_of_uint d)))
      with (String "-" (form_encode (NilZero.string_of_uint d))).
    f_equal. destruct d; try reflexivity; apply form_encode_uint.
Qed.

(** An integer within the safe integers prints as its digits. *)
Lemma toString_integer shortest x z :
  is_integer x = true ->
  floorZ x = Some z ->
  Z.abs z <= MAX_SAFE_INTEGER ->
  Number_toString shortest x = string_of_Z z.
Proof.
  destruct x as [s|s| |s m e]; cbn [floorZ]; try discriminate.
  - intros _ [= <-] _. reflexivity.
  - intros Hint [= Hz] Hsafe. cbn [Number_toString].
    rewrite Hint, Hz. apply Z.leb_le in Hsafe. rewrite Hsafe. reflexivity.
Qed.

(** Sell passes the token amount through: for a valid mint and an integer
    amount within the safe integers, the one body posted is the form string
    of the eight parameters in the order of the source, with the digits of
    the amount as they are, without any scaling, and [denominatedInSol] set
    to [false]. *)
Theorem sell_amount_passes_through
    env connection wallet tokenMint tokenAmount sl pf pubkey z :
  new_PublicKey env tokenMint = Ok pubkey ->
  is_integer tokenAmount = true ->
  floorZ tokenAmount = Some z ->
  Z.abs z <= MAX_SAFE_INTEGER ->
  posted (fst (sellViaPumpPortal env connection wallet tokenMint tokenAmount sl pf))
  = [DataString
       ("publicKey=" ++ form_encode (toBase58 (publicKey wallet))
        ++ "&action=sell&mint=" ++ form_encode (toBase58 pubkey)
        ++ "&amount=" ++ string_of_Z z
        ++ "&denominatedInSol=false&slippage="
        ++ form_encode (Number_toString (shortest_digits env) (or_default num_5 sl))
        ++ "&priorityFee="
        ++ form_encode (Number_toString (shortest_digits env)
                          (or_default num_0_005 pf))
        ++ "&pool=pump")].
Proof.
  intros Hkey Hint Hz Hsafe.
  pose proof (posted_payload Sell env connection wallet tokenMint tokenAmount
                sl pf pubkey Hkey) as P.
  cbn [trade] in P. rewrite P.
  unfold payload, sell_params, params_append.
  cbn [app URLSearchParams_toString].
  rewrite (toString_integer _ _ _ Hint Hz Hsafe), form_encode_Z.
  change (form_encode "publicKey") with "publicKey".
  change (form_encode "action") with "action".
  change (form_encode "sell") with "sell".
  change (form_encode "mint") with "mint".
  change (form_encode "amount") with "amount".
  change (form_encode "denominatedInSol") with "denominatedInSol".
  change (form_encode "false") with "false".
  change (form_encode "slippage") with "slippage".
  change (form_encode "priorityFee") with "priorityFee".
  change (form_encode "pool") with "pool".
  change (form_encode "pump") with "pump".
  cbn [append]. reflexivity.
Qed.

Lemma sell_amount_passes_through_witness :
  posted (fst (sellViaPumpPortal (sample_env (Ok sample_response))
                 (sample_connection (Ok sample_signature) None) sample_wallet
                 sample_mint num_1000000 None None))
  = [DataString "publicKey=4Nd1mBQtrMJVYVfKf2PJy9NZUZdTAsp7D4xWLs4gDB4T&action=sell&mint=So11111111111111111111111111111111111111112&amount=1000000&denominatedInSol=false&slippage=5&priorityFee=0.005&pool=pump"].
Proof.
  apply (sell_amount_passes_through (sample_env (Ok sample_response))
           (sample_connection (Ok sample_signature) None) sample_wallet
           sample_mint num_1000000 None None {| toBase58 := sample_mint |}
           1000000).
  - reflexivity.
  - vm_compute. reflexivity.
  - vm_compute. reflexivity.
  - vm_compute. discriminate.
Defined.

(** Buy does not validate the amount: for a valid mint and an amount that
    is not finite (NaN or an infinity) the request is posted all the same,
    and its amount is the text of the number, "NaN", "Infinity" or
    "-Infinity". *)
Theorem buy_amount_is_not_validated
    env connection wallet tokenMint solAmount sl pf pubkey :
  new_PublicKey env tokenMint = Ok pubkey ->
  floorZ solAmount = None ->
  exists r,
    posted (fst (buyViaPumpPortal env connection wallet tokenMint solAmount sl pf))
    = [DataObject r]
    /\ rd_amount r = Number_toString (shortest_digits env) solAmount
    /\ (rd_amount r = "NaN" \/ rd_amount r = "Infinity"
        \/ rd_amount r = "-Infinity").
Proof.
  intros Hkey Hz. eexists. split.
  - exact (posted_payload Buy env connection wallet tokenMint solAmount sl pf
             pubkey Hkey).
  - cbn [rd_amount buy_requestData].
    destruct solAmount as [s|[|]| |s m e]; try discriminate; cbn; auto.
Qed.

Lemma buy_amount_is_not_validated_witness :
  exists r,
    posted (fst (buyViaPumpPortal (sample_env (Ok sample_response))
                   (sample_connection (Ok sample_signature) None) sample_wallet
                   sample_mint S754_nan None None))
    = [DataObject r]
    /\ rd_amount r = "NaN"
    /\ (rd_amount r = "NaN" \/ rd_amount r = "Infinity"
        \/ rd_amount r = "-Infinity").
Proof.
  apply (buy_amount_is_not_validated (sample_env (Ok sample_response))
           (sample_connection (Ok sample_signature) None) sample_wallet
           sample_mint S754_nan None None {| toBase58 := sample_mint |});
    reflexivity.
Defined.

(** The one request of a buy whose mint is valid: the wallet's address, the
    canonical form of the mint as the parser gave it (not the string of the
    caller), [denominatedInSol] set to [true], the pool [pump], and the
    slippage and priority fee of the caller, or 5 and 0.005 when they are
    omitted. *)
Theorem buy_request_fields
    env connection wallet tokenMint solAmount sl pf pubkey :
  new_PublicKey env tokenMint = Ok pubkey ->
  exists amount,
    posted (fst (buyViaPumpPortal env connection wallet tokenMint solAmount sl pf))
    = [DataObject
         {| rd_publicKey := toBase58 (publicKey wallet);
            rd_action := "buy";
            rd_mint := toBase58 pubkey;
            rd_amount := amount;
            rd_denominatedInSol := "true";
            rd_slippage := match sl with Some s => s | None => num_5 end;
            rd_priorityFee := match pf with Some p => p | None => num_0_005 end;
            rd_pool := "pump" |}].
Proof.
  intros Hkey. eexists.
  exact (posted_payload Buy env connection wallet tokenMint solAmount sl pf
           pubkey Hkey).
Qed.

Lemma buy_request_fields_witness :
  exists amount,
    posted (fst (buyViaPumpPortal (sample_env (Ok sample_response))
                   (sample_connection (Ok sample_signature) None) sample_wallet
                   sample_mint num_0_0123 None None))
    = [DataObject
         {| rd_publicKey := "4Nd1mBQtrMJVYVfKf2PJy9NZUZdTAsp7D4xWLs4gDB4T";
            rd_action := "buy";
            rd_mint := sample_mint;
            rd_amount := amount;
            rd_denominatedInSol := "true";
            rd_slippage := num_5;
            rd_priorityFee := num_0_005;
            rd_pool := "pump" |}].
Proof.
  apply (buy_request_fields (sample_env (Ok sample_response))
           (sample_connection (Ok sample_signature) None) sample_wallet
           sample_mint num_0_0123 None None {| toBase58 := sample_mint |}).
  reflexivity.
Defined.

(** With the sink the module starts with, a run whose stages all answer and
    whose confirmation carries no error prints six lines on the standard
    output (the opening, the size of the transaction received, the sending,
    the signature sent, the success and the explorer link) and nothing on
    the standard error. *)
Theorem default_sink_on_success
    a env connection wallet tokenMint amount sl pf s :
  reaches_confirmation a env connection wallet tokenMint amount sl pf s ->
  value_err (st_confirmation s) = None ->
  deliver (logger initial_state)
    (fst (trade a env connection wallet tokenMint amount sl pf))
    {| stdout := []; stderr := [] |}
  = {| stdout :=
         [(opening a env tokenMint amount, []);
          ("Received transaction from PumpPortal API ("
           ++ string_of_Z (Z.of_nat (List.length (st_data s))) ++ " bytes)", []);
          ("Sending PumpPortal transaction...", []);
          ("Transaction sent: " ++ st_signature s, []);
          (action_word a ++ " SUCCESSFUL via PumpPortal: " ++ st_signature s, []);
          ("Transaction: https://solscan.io/tx/" ++ st_signature s, [])];
       stderr := [] |}.
Proof.
  intros Hs Herr.
  rewrite trade_unfold, (reaches_confirmation_try _ _ _ _ _ _ _ _ _ Hs), Herr.
  cbn [after try_catch async fst logger initial_state].
  rewrite deliver_default.
  destruct a; reflexivity.
Qed.

Lemma default_sink_on_success_witness :
  deliver (logger initial_state)
    (fst (trade Buy (sample_env (Ok sample_response))
            (sample_connection (Ok sample_signature) None) sample_wallet
            sample_mint num_1 None None))
    {| stdout := []; stderr := [] |}
  = {| stdout :=
         [("Using PumpPortal API to buy 1 SOL worth of So111111...", []);
          ("Received transaction from PumpPortal API (3 bytes)", []);
          ("Sending PumpPortal transaction...", []);
          ("Transaction sent: 5VERv8NMvzbJMEkV8xnrLkEaWRtSz9CosKDYjCJjBRnbJLgp8uirBgmQpjKhoR4tjF3ZpRzrFmBV6UjKdiSZkQUW", []);
          ("BUY SUCCESSFUL via PumpPortal: 5VERv8NMvzbJMEkV8xnrLkEaWRtSz9CosKDYjCJjBRnbJLgp8uirBgmQpjKhoR4tjF3ZpRzrFmBV6UjKdiSZkQUW", []);
          ("Transaction: https://solscan.io/tx/5VERv8NMvzbJMEkV8xnrLkEaWRtSz9CosKDYjCJjBRnbJLgp8uirBgmQpjKhoR4tjF3ZpRzrFmBV6UjKdiSZkQUW", [])];
       stderr := [] |}.
Proof.
  apply (default_sink_on_success Buy (sample_env (Ok sample_response))
           (sample_connection (Ok sample_signature) None) sample_wallet
           sample_mint num_1 None None (sample_stages None)
           (sample_reaches_confirmation Buy None) eq_refl).
Defined.

Lemma read_string_of_Z (z : Z) : read_Z (string_of_Z z) = Some z.
Proof.
  unfold read_Z, string_of_Z.
  rewrite NilZero.isi.
  - cbn [option_map]. rewrite DecimalZ.of_to. reflexivity.
  - destruct z; cbn; try discriminate.
    intros [= H]. apply DecimalPos.Unsigned.to_uint_nonnil in H. exact H.
  - destruct z; cbn; try discriminate.
    intros [= H]. apply DecimalPos.Unsigned.to_uint_nonnil in H. exact H.
Qed.

(** The amount of buy reads back: read as a decimal integer, the amount
    posted is the floor of the binary64 product solAmount * 1e9, so that
    different lamport values are never posted as the same text. *)
Theorem lamports_read_back
    env connection wallet tokenMint solAmount sl pf pubkey z :
  new_PublicKey env tokenMint = Ok pubkey ->
  floorZ (num_mul solAmount num_1e9) = Some z ->
  Z.abs z <= MAX_SAFE_INTEGER ->
  exists r,
    posted (fst (buyViaPumpPortal env connection wallet tokenMint solAmount sl pf))
    = [DataObject r]
    /\ read_Z (rd_amount r) = Some z.
Proof.
  intros Hkey Hz Hsafe. eexists. split.
  - exact (posted_payload Buy env connection wallet tokenMint solAmount sl pf
             pubkey Hkey).
  - cbn [rd_amount buy_requestData].
    rewrite (toString_floor _ _ _ Hz Hsafe). apply read_string_of_Z.
Qed.

Lemma lamports_read_back_witness :
  exists r,
    posted (fst (buyViaPumpPortal (sample_env (Ok sample_response))
                   (sample_connection (Ok sample_signature) None) sample_wallet
                   sample_mint num_1_001 None None))
    = [DataObject r]
    /\ read_Z (rd_amount r) = Some 1000999999.
Proof.
  apply (lamports_read_back (sample_env (Ok sample_response))
           (sample_connection (Ok sample_signature) None) sample_wallet
           sample_mint num_1_001 None None {| toBase58 := sample_mint |}
           1000999999).
  - reflexivity.
  - vm_compute. reflexivity.
  - vm_compute. discriminate.
Defined.
